(** * mm-jinja: template filters and globals

    A shallow embedding of [mm_jinja/filters.py] and [mm_jinja/globals.py].
    Python objects are an inductive type [object]; a call that can raise
    returns a [result]; [float] is IEEE 754 binary64, carried by the
    Standard Library's [spec_float] with [prec = 53] and [emax = 1024];
    [str] is [string], one [ascii] per code point below 256. *)

From Stdlib Require Import ZArith List String Ascii Bool Lia.
From Stdlib Require Import Floats.SpecFloat.
From Stdlib Require Import DecimalString DecimalZ DecimalPos DecimalFacts.
Import ListNotations.

Open Scope string_scope.
Open Scope Z_scope.

(** ** Exceptions and the error monad *)

Inductive exc_class :=
| ValueError
| TypeError
| OverflowError
| RuntimeError
| OSError
| JSONDecodeError.

(** An exception instance: its class and [str(e)], the description. *)
Record exception := mkExc { exc_type : exc_class; exc_msg : string }.

Inductive result (A : Type) :=
| Ok (a : A)
| Raise (e : exception).
Arguments Ok {A} a.
Arguments Raise {A} e.

Definition bind {A B : Type} (c : result A) (k : A -> result B) : result B :=
  match c with
  | Ok a => k a
  | Raise e => Raise e
  end.

Notation "x <- c ;; k" := (bind c (fun x => k))
  (at level 61, c at next level, right associativity).

Definition raises {A : Type} (c : result A) : Prop :=
  exists e, c = Raise e.

Definition returns {A : Type} (c : result A) : Prop :=
  exists a, c = Ok a.

(** ** Strings *)

Definition chars (s : string) : list ascii := list_ascii_of_string s.
Definition str_of_chars (l : list ascii) : string := string_of_list_ascii l.

(** [sep.join(parts)] *)
Fixpoint join (sep : string) (parts : list string) : string :=
  match parts with
  | [] => ""
  | [p] => p
  | p :: rest => p ++ sep ++ join sep rest
  end.

(** [enumerate(l)]: the elements paired with their index from 0. *)
Fixpoint enumerate_from {A : Type} (i : Z) (l : list A) : list (Z * A) :=
  match l with
  | [] => []
  | x :: rest => (i, x) :: enumerate_from (i + 1) rest
  end.

Definition enumerate {A : Type} (l : list A) : list (Z * A) :=
  enumerate_from 0 l.

(** [c * n] for a one-character string [c]. *)
Definition repeat_char (c : ascii) (n : Z) : string :=
  str_of_chars (repeat c (Z.to_nat n)).

(** [str(n)] for an [int]. The interpreter's limit on the number of digits
    of this conversion, a setting, is not modelled. *)
Definition str_int (n : Z) : string := NilZero.string_of_int (Z.to_int n).

(** [len(str(n))] for [n > 0]. *)
Definition ndigits10 (n : Z) : Z := Z.of_nat (String.length (str_int n)).

(** ** Characters *)

Definition code (c : ascii) : Z := Z.of_N (N_of_ascii c).
Definition chr (n : Z) : ascii := ascii_of_N (Z.to_N n).

Definition is_digit (c : ascii) : bool := (48 <=? code c) && (code c <=? 57).
Definition digit_val (c : ascii) : Z := code c - 48.

(** The lower-case hexadecimal digit of [n], [0 <= n < 16]. *)
Definition hex_digit (n : Z) : ascii :=
  if n <? 10 then chr (48 + n) else chr (87 + n).

(** [c.lower()] on the ASCII letters. *)
Definition lower (c : ascii) : ascii :=
  if (65 <=? code c) && (code c <=? 90) then chr (code c + 32) else c.

Definition quote1 : ascii := "'"%char.
Definition quote2 : ascii := "034"%char.
Definition backslash : ascii := "\"%char.

Definition mem_char (c : ascii) (s : string) : bool :=
  existsb (Ascii.eqb c) (chars s).

(** [str.isprintable] on the code points below 256. *)
Definition is_printable (c : ascii) : bool :=
  let n := code c in
  negb ((n <? 32) || (n =? 127) || ((128 <=? n) && (n <=? 160)) || (n =? 173)).

(** One character of [repr(s)] inside the quotes [q]. *)
Definition repr_char (q : ascii) (c : ascii) : string :=
  if Ascii.eqb c q || Ascii.eqb c backslash then String backslash (String c "")
  else if code c =? 9 then String backslash "t"
  else if code c =? 10 then String backslash "n"
  else if code c =? 13 then String backslash "r"
  else if is_printable c then String c ""
  else String backslash
         (String "x" (String (hex_digit (code c / 16)) (String (hex_digit (code c mod 16)) ""))).

(** [repr(s)] for a [str]: single quotes unless the text has a single quote
    and no double quote. *)
Definition repr_str (s : string) : string :=
  let q := if mem_char quote1 s && negb (mem_char quote2 s) then quote2 else quote1 in
  String q (concat "" (map (repr_char q) (chars s))) ++ String q "".

(** [format(n, "0<w>d")] for [n >= 0]: decimal, zero-padded to [w] characters. *)
Definition zfill (w : Z) (n : Z) : string :=
  repeat_char "0" (w - ndigits10 n) ++ str_int n.

(** ** [float]: IEEE 754 binary64 *)

Definition prec : Z := 53.
Definition emax : Z := 1024.

Definition float : Type := spec_float.

Definition is_finite (x : float) : bool :=
  match x with
  | S754_zero _ | S754_finite _ _ _ => true
  | _ => false
  end.

Definition sign_bit (x : float) : bool :=
  match x with
  | S754_zero s | S754_infinity s | S754_finite s _ _ => s
  | S754_nan => false
  end.

(** The double nearest to [(-1)^s * p / q], ties to even, for [0 <= p] and
    [0 < q]; an infinity past the largest double. *)
Definition float_of_ratio (s : bool) (p q : Z) : float :=
  if p =? 0 then S754_zero s
  else
    let '(mz, ez, lz) := SFdiv_core_binary prec emax p 0 q 0 in
    binary_round_aux prec emax s mz ez lz.

(** The double nearest to [(-1)^s * m * 10^e], for [0 <= m]. *)
Definition float_of_decimal (s : bool) (m e : Z) : float :=
  if 0 <=? e then float_of_ratio s (m * 10 ^ e) 1
  else float_of_ratio s m (10 ^ (- e)).

(** The double nearest to the integer [n]. *)
Definition float_of_Z (n : Z) : float :=
  binary_normalize prec emax n 0 false.

(** [|x| = p / q] for a finite [x]. *)
Definition ratio_of_float (x : float) : Z * Z :=
  match x with
  | S754_finite _ m e =>
      if 0 <=? e then (Z.pos m * 2 ^ e, 1) else (Z.pos m, 2 ^ (- e))
  | _ => (0, 1)
  end.

(** [x == y] and [x > y] on floats; a NaN compares false. *)
Definition float_eq (x y : float) : bool := SFeqb x y.
Definition float_gt (x y : float) : bool := SFltb y x.

(** The integer part of a finite [x], rounded toward zero. *)
Definition trunc (x : float) : Z :=
  let '(p, q) := ratio_of_float x in
  cond_Zopp (sign_bit x) (p / q).

(** [int(x)] for a float [x]. *)
Definition int_of_float (x : float) : result Z :=
  match x with
  | S754_nan => Raise (mkExc ValueError "cannot convert float NaN to integer")
  | S754_infinity _ =>
      Raise (mkExc OverflowError "cannot convert float infinity to integer")
  | _ => Ok (trunc x)
  end.

(** [p / q] rounded to the nearest integer, ties to even, for [0 <= p],
    [0 < q]. *)
Definition round_half_even (p q : Z) : Z :=
  let a := p / q in
  match (2 * (p mod q)) ?= q with
  | Lt => a
  | Gt => a + 1
  | Eq => if Z.even a then a else a + 1
  end.

Definition NDIGITS_MAX : Z := 323.
Definition NDIGITS_MIN : Z := -308.

(** [round(x, ndigits)] for a float [x] and an [int] [ndigits]: the exact
    value of [x] rounded half-to-even to [ndigits] decimal places, then the
    nearest double of that decimal. *)
Definition float_round (x : float) (ndigits : Z) : result float :=
  if negb (is_finite x) then Ok x
  else if NDIGITS_MAX <? ndigits then Ok x
  else if ndigits <? NDIGITS_MIN then Ok (S754_zero (sign_bit x))
  else
    let '(p, q) := ratio_of_float x in
    let n :=
      if 0 <=? ndigits then round_half_even (p * 10 ^ ndigits) q
      else round_half_even p (q * 10 ^ (- ndigits)) in
    let rounded := float_of_decimal (sign_bit x) n (- ndigits) in
    if is_finite rounded then Ok rounded
    else Raise (mkExc OverflowError "rounded value too large to represent").

(** *** [repr(x)] of a float: the shortest decimal that reads back as [x] *)

(** The [k] with [10^(k-1) <= p / q < 10^k], for [0 < p] and [0 < q]. *)
Definition decimal_point (p q : Z) : Z :=
  if q <=? p then ndigits10 (p / q) else 1 - ndigits10 ((q - 1) / p).

(** [p / q * 10^d] as a ratio. *)
Definition scale10 (p q d : Z) : Z * Z :=
  if 0 <=? d then (p * 10 ^ d, q) else (p, q * 10 ^ (- d)).

(** The [n]-digit decimal [c * 10^(k-n)] that reads back as [x = p / q] and
    is nearest to it (ties to the even [c]), when one of the two neighbours
    of [x] with [n] digits reads back as [x]. *)
Definition digits_try (x : float) (p q k n : Z) : option Z :=
  let '(P, Q) := scale10 p q (n - k) in
  let lo := P / Q in
  let r := P mod Q in
  let hi := lo + 1 in
  let back c := match SFcompare (float_of_decimal false c (k - n)) x with
                | Some Eq => true
                | _ => false
                end in
  if r =? 0 then Some lo
  else
    match back lo, back hi with
    | true, true =>
        match (2 * r) ?= Q with
        | Lt => Some lo
        | Gt => Some hi
        | Eq => Some (if Z.even lo then lo else hi)
        end
    | true, false => Some lo
    | false, true => Some hi
    | false, false => None
    end.

Fixpoint digits_search (fuel : nat) (x : float) (p q k n : Z) : Z * Z :=
  match fuel with
  | O => let '(P, Q) := scale10 p q (n - k) in (round_half_even P Q, n)
  | S fuel' =>
      match digits_try x p q k n with
      | Some c => (c, n)
      | None => digits_search fuel' x p q k (n + 1)
      end
  end.

(** [s.rstrip("0")] on the characters in reverse order. *)
Fixpoint drop_zeros (rev_digits : list ascii) : list ascii :=
  match rev_digits with
  | c :: rest => if Ascii.eqb c "0" then drop_zeros rest else rev_digits
  | [] => []
  end.

Definition rstrip_zeros (s : string) : string :=
  str_of_chars (rev (drop_zeros (rev (chars s)))).

(** The shortest digit string [ds] and the decimal point [decpt] of a
    positive finite [x]: [x] is the double nearest to [0.ds * 10^decpt]. *)
Definition shortest_digits (x : float) : string * Z :=
  let '(p, q) := ratio_of_float (SFabs x) in
  let k := decimal_point p q in
  let '(c, n) := digits_search 16 (SFabs x) p q k 1 in
  (rstrip_zeros (str_int c), k - n + ndigits10 c).

(** The exponent of the [e] notation: a sign and at least two digits. *)
Definition repr_exponent (e : Z) : string :=
  (if e <? 0 then "e-" else "e+") ++ zfill 2 (Z.abs e).

(** The digits [ds] with the decimal point after [decpt] of them. *)
Definition place_point (ds : string) (decpt : Z) (add_dot_0 : bool) : string :=
  let n := Z.of_nat (String.length ds) in
  if decpt <=? 0 then "0." ++ repeat_char "0" (- decpt) ++ ds
  else if n <=? decpt then
    ds ++ repeat_char "0" (decpt - n) ++ (if add_dot_0 then ".0" else "")
  else
    substring 0 (Z.to_nat decpt) ds ++ "." ++
    substring (Z.to_nat decpt) (Z.to_nat (n - decpt)) ds.

(** [repr(x)], which is also [str(x)], for a float. *)
Definition repr_float (x : float) : string :=
  match x with
  | S754_nan => "nan"
  | S754_infinity s => if s then "-inf" else "inf"
  | S754_zero s => if s then "-0.0" else "0.0"
  | S754_finite s _ _ =>
      let '(ds, decpt) := shortest_digits x in
      (if s then "-" else "") ++
      (if (decpt <=? -4) || (16 <? decpt)
       then place_point ds 1 false ++ repr_exponent (decpt - 1)
       else place_point ds decpt true)
  end.

(** *** [float(s)] for a [str] *)

(** The white space [float] strips: tab to carriage return, space, and the
    two spaces above 127. *)
Definition is_space (c : ascii) : bool :=
  let n := code c in
  ((9 <=? n) && (n <=? 13)) || (n =? 32) || (n =? 133) || (n =? 160).

Fixpoint lstrip (l : list ascii) : list ascii :=
  match l with
  | c :: rest => if is_space c then lstrip rest else l
  | [] => []
  end.

Definition strip (l : list ascii) : list ascii :=
  rev (lstrip (rev (lstrip l))).

(** The text without its underscores, when each one stands between two
    digits. *)
Fixpoint drop_underscores (prev : ascii) (l : list ascii) : option (list ascii) :=
  match l with
  | [] => if Ascii.eqb prev "_" then None else Some []
  | c :: rest =>
      if Ascii.eqb c "_" then
        if is_digit prev then drop_underscores c rest else None
      else if Ascii.eqb prev "_" && negb (is_digit c) then None
      else option_map (cons c) (drop_underscores c rest)
  end.

(** The leading digits of [l]: their value after [acc], their number, and
    the rest of the text. *)
Fixpoint take_digits (l : list ascii) (acc : Z) (n : Z) : Z * Z * list ascii :=
  match l with
  | c :: rest =>
      if is_digit c then take_digits rest (10 * acc + digit_val c) (n + 1)
      else (acc, n, l)
  | [] => (acc, n, [])
  end.

Definition take_sign (l : list ascii) : bool * list ascii :=
  match l with
  | "-"%char :: rest => (true, rest)
  | "+"%char :: rest => (false, rest)
  | _ => (false, l)
  end.

(** [e] or [E], a sign and digits; without digits the exponent is not read. *)
Definition take_exponent (l : list ascii) : Z * list ascii :=
  match l with
  | c :: rest =>
      if Ascii.eqb (lower c) "e" then
        let '(s, rest') := take_sign rest in
        let '(e, n, rest'') := take_digits rest' 0 0 in
        if n =? 0 then (0, l) else (cond_Zopp s e, rest'')
      else (0, l)
  | [] => (0, l)
  end.

(** A decimal number at the head of [l]: digits, a point, digits, an
    exponent, with a digit before or after the point. *)
Definition take_number (s : bool) (l : list ascii) : option (float * list ascii) :=
  let '(ip, ni, r1) := take_digits l 0 0 in
  let '(m, nf, r2) :=
    match r1 with
    | "."%char :: rest => take_digits rest ip 0
    | _ => (ip, 0, r1)
    end in
  if ni + nf =? 0 then None
  else
    let '(e, r3) := take_exponent r2 in
    Some (float_of_decimal s m (e - nf), r3).

Fixpoint starts_with_ci (word : list ascii) (l : list ascii) : option (list ascii) :=
  match word, l with
  | [], _ => Some l
  | w :: word', c :: rest =>
      if Ascii.eqb (lower c) w then starts_with_ci word' rest else None
  | _ :: _, [] => None
  end.

(** [inf], [infinity] or [nan] at the head of [l], in either case. *)
Definition take_inf_or_nan (s : bool) (l : list ascii) : option (float * list ascii) :=
  match starts_with_ci (chars "inf") l with
  | Some rest =>
      match starts_with_ci (chars "inity") rest with
      | Some rest' => Some (S754_infinity s, rest')
      | None => Some (S754_infinity s, rest)
      end
  | None =>
      match starts_with_ci (chars "nan") l with
      | Some rest => Some (S754_nan, rest)
      | None => None
      end
  end.

Definition parse_float (l : list ascii) : option float :=
  match drop_underscores "000" (strip l) with
  | None => None
  | Some l' =>
      let '(s, body) := take_sign l' in
      let r := match take_number s body with
               | Some r => Some r
               | None => take_inf_or_nan s body
               end in
      match r with
      | Some (x, []) => Some x
      | _ => None
      end
  end.

Definition float_of_str (s : string) : result float :=
  match parse_float (chars s) with
  | Some x => Ok x
  | None =>
      Raise (mkExc ValueError ("could not convert string to float: " ++ repr_str s))
  end.

(** ** [decimal.Decimal] *)

(** A Decimal: sign, coefficient and exponent, or one of the special values;
    a NaN carries its payload digits. *)
Inductive decimal :=
| DecFinite (sign : bool) (coeff : N) (exp : Z)
| DecInfinity (sign : bool)
| DecNaN (sign : bool) (payload : string)
| DecSNaN (sign : bool) (payload : string).

(** [str(d)]: the scientific string of a Decimal. *)
Definition str_decimal (d : decimal) : string :=
  match d with
  | DecInfinity s => (if s then "-" else "") ++ "Infinity"
  | DecNaN s p => (if s then "-" else "") ++ "NaN" ++ p
  | DecSNaN s p => (if s then "-" else "") ++ "sNaN" ++ p
  | DecFinite s c e =>
      let int_ := str_int (Z.of_N c) in
      let n := Z.of_nat (String.length int_) in
      let leftdigits := e + n in
      let dotplace := if (e <=? 0) && (-6 <? leftdigits) then leftdigits else 1 in
      let '(intpart, fracpart) :=
        if dotplace <=? 0 then ("0", "." ++ repeat_char "0" (- dotplace) ++ int_)
        else if n <=? dotplace then (int_ ++ repeat_char "0" (dotplace - n), "")
        else (substring 0 (Z.to_nat dotplace) int_,
              "." ++ substring (Z.to_nat dotplace) (Z.to_nat (n - dotplace)) int_) in
      let exp :=
        if leftdigits =? dotplace then ""
        else "E" ++ (if leftdigits - dotplace <? 0 then "" else "+")
                 ++ str_int (leftdigits - dotplace) in
      (if s then "-" else "") ++ intpart ++ fracpart ++ exp
  end.

(** [float(d)] for a Decimal. *)
Definition float_of_Decimal (d : decimal) : result float :=
  match d with
  | DecSNaN _ _ => Raise (mkExc ValueError "cannot convert signaling NaN to float")
  | DecNaN s _ => float_of_str (if s then "-nan" else "nan")
  | _ => float_of_str (str_decimal d)
  end.

(** ** [datetime.datetime], without a time zone *)

Record datetime := mkDatetime {
  year : Z; month : Z; day : Z;
  hour : Z; minute : Z; second : Z; microsecond : Z
}.

(** [str(d)], which is [d.isoformat(sep=" ")]. *)
Definition str_datetime (d : datetime) : string :=
  zfill 4 (year d) ++ "-" ++ zfill 2 (month d) ++ "-" ++ zfill 2 (day d) ++ " " ++
  zfill 2 (hour d) ++ ":" ++ zfill 2 (minute d) ++ ":" ++ zfill 2 (second d) ++
  (if microsecond d =? 0 then "" else "." ++ zfill 6 (microsecond d)).

Definition repr_datetime (d : datetime) : string :=
  let L := [year d; month d; day d; hour d; minute d] in
  let L := if microsecond d =? 0
           then if second d =? 0 then L else (L ++ [second d])%list
           else (L ++ [second d; microsecond d])%list in
  "datetime.datetime(" ++ join ", " (map str_int L) ++ ")".

(** ** Python objects *)

#[local] Unset Elimination Schemes.

Inductive object :=
| VNone
| VBool (b : bool)
| VInt (n : Z)
| VFloat (x : float)
| VStr (s : string)
| VList (items : list object)
| VTuple (items : list object)
| VDict (items : list (string * object))
| VDecimal (d : decimal)
| VDatetime (d : datetime).

#[local] Set Elimination Schemes.

(** Induction on an [object] with the hypothesis on every item of a list,
    tuple or dict. *)
Fixpoint object_ind (P : object -> Prop)
    (HNone : P VNone)
    (HBool : forall b, P (VBool b))
    (HInt : forall n, P (VInt n))
    (HFloat : forall x, P (VFloat x))
    (HStr : forall s, P (VStr s))
    (HList : forall l, Forall P l -> P (VList l))
    (HTuple : forall l, Forall P l -> P (VTuple l))
    (HDict : forall d, Forall (fun kv => P (snd kv)) d -> P (VDict d))
    (HDecimal : forall d, P (VDecimal d))
    (HDatetime : forall d, P (VDatetime d))
    (v : object) {struct v} : P v :=
  let rec := object_ind P HNone HBool HInt HFloat HStr HList HTuple HDict
               HDecimal HDatetime in
  match v with
  | VNone => HNone
  | VBool b => HBool b
  | VInt n => HInt n
  | VFloat x => HFloat x
  | VStr s => HStr s
  | VList l =>
      HList l ((fix all (l : list object) : Forall P l :=
                  match l with
                  | [] => Forall_nil P
                  | x :: r => Forall_cons x (rec x) (all r)
                  end) l)
  | VTuple l =>
      HTuple l ((fix all (l : list object) : Forall P l :=
                   match l with
                   | [] => Forall_nil P
                   | x :: r => Forall_cons x (rec x) (all r)
                   end) l)
  | VDict d =>
      HDict d ((fix all (d : list (string * object))
                  : Forall (fun kv => P (snd kv)) d :=
                  match d with
                  | [] => Forall_nil _
                  | kv :: r => Forall_cons kv (rec (snd kv)) (all r)
                  end) d)
  | VDecimal d => HDecimal d
  | VDatetime d => HDatetime d
  end.

(** [type(v).__name__], as error messages quote it. *)
Definition type_name (v : object) : string :=
  match v with
  | VNone => "NoneType"
  | VBool _ => "bool"
  | VInt _ => "int"
  | VFloat _ => "float"
  | VStr _ => "str"
  | VList _ => "list"
  | VTuple _ => "tuple"
  | VDict _ => "dict"
  | VDecimal _ => "decimal.Decimal"
  | VDatetime _ => "datetime.datetime"
  end.

Fixpoint py_repr (v : object) : string :=
  match v with
  | VNone => "None"
  | VBool b => if b then "True" else "False"
  | VInt n => str_int n
  | VFloat x => repr_float x
  | VStr s => repr_str s
  | VList l => "[" ++ join ", " (map py_repr l) ++ "]"
  | VTuple l =>
      match l with
      | [x] => "(" ++ py_repr x ++ ",)"
      | _ => "(" ++ join ", " (map py_repr l) ++ ")"
      end
  | VDict d =>
      "{" ++ join ", " (map (fun kv => repr_str (fst kv) ++ ": " ++ py_repr (snd kv)) d) ++ "}"
  | VDecimal d => "Decimal('" ++ str_decimal d ++ "')"
  | VDatetime d => repr_datetime d
  end.

(** [str(v)], which is also what an f-string puts for [{v}]. *)
Definition py_str (v : object) : string :=
  match v with
  | VStr s => s
  | VDecimal d => str_decimal d
  | VDatetime d => str_datetime d
  | _ => py_repr v
  end.

(** [v is None], [v is True], [v is False]. *)
Definition is_None (v : object) : bool :=
  match v with
  | VNone => true
  | _ => false
  end.

Definition is_True (v : object) : bool :=
  match v with
  | VBool true => true
  | _ => false
  end.

Definition is_False (v : object) : bool :=
  match v with
  | VBool false => true
  | _ => false
  end.

(** [v == s] for a [str] [s]: only a [str] equals a [str]. *)
Definition eq_str (v : object) (s : string) : bool :=
  match v with
  | VStr s' => String.eqb s' s
  | _ => false
  end.

(** [isinstance(v, Sequence)] *)
Definition is_Sequence (v : object) : bool :=
  match v with
  | VStr _ | VList _ | VTuple _ => true
  | _ => false
  end.

(** [isinstance(v, int)]: a [bool] is an [int]. *)
Definition as_int (v : object) : option Z :=
  match v with
  | VInt n => Some n
  | VBool b => Some (if b then 1 else 0)
  | _ => None
  end.

(** [len(v)] *)
Definition py_len (v : object) : result Z :=
  match v with
  | VStr s => Ok (Z.of_nat (String.length s))
  | VList l | VTuple l => Ok (Z.of_nat (List.length l))
  | VDict d => Ok (Z.of_nat (List.length d))
  | _ => Raise (mkExc TypeError
                  ("object of type '" ++ type_name v ++ "' has no len()"))
  end.

(** [float(n)] for an [int]. *)
Definition float_of_int (n : Z) : result float :=
  let x := float_of_Z n in
  if is_finite x then Ok x
  else Raise (mkExc OverflowError "int too large to convert to float").

(** [float(v)] *)
Definition py_float (v : object) : result float :=
  match v with
  | VFloat x => Ok x
  | VInt n => float_of_int n
  | VBool b => float_of_int (if b then 1 else 0)
  | VStr s => float_of_str s
  | VDecimal d => float_of_Decimal d
  | _ => Raise (mkExc TypeError
                  ("float() argument must be a string or a real number, not '"
                   ++ type_name v ++ "'"))
  end.

(** [x == n] and [x > n] for a float [x] and an [int] [n] that a double
    holds exactly. *)
Definition float_eq_int (x : float) (n : Z) : bool := float_eq x (float_of_Z n).
Definition float_gt_int (x : float) (n : Z) : bool := float_gt x (float_of_Z n).
Definition float_lt_int (x : float) (n : Z) : bool := float_gt (float_of_Z n) x.

(** ** The platform: [strftime] and the local time zone *)

Class Platform := {
  (** [d.strftime(format)] *)
  strftime : datetime -> string -> result string;
  (** [datetime.fromtimestamp(n)]: local time, without a time zone *)
  fromtimestamp : Z -> result datetime
}.

(** ** [markupsafe.Markup]: a [str] marked as safe HTML *)

Record Markup := mkMarkup { markup_text : string }.

(** ** filters.py *)


Definition as_datetime (v : object) : option datetime :=
  match v with
  | VDatetime d => Some d
  | _ => None
  end.

Definition timestamp `{Platform} (value : object) (format_ : string) : result string :=
  match as_datetime value with
  | Some d => strftime d format_
  | None =>
      match as_int value with
      | Some n => d <- fromtimestamp n ;; strftime d format_
      | None => Ok ""
      end
  end.

Definition empty (value : object) : result object :=
  if is_None value then Ok (VStr "")
  else
    is_empty <- (if is_Sequence value
                 then n <- py_len value ;; Ok (n =? 0)
                 else Ok false) ;;
    if is_empty then Ok (VStr "") else Ok value.

(** The f-string of [yes_no]. *)
Definition span (clr : string) (text : string) : string :=
  "<span style='color: " ++ clr ++ ";'>" ++ text ++ "</span>".

Definition yes_no (value : object)
    (is_colored hide_no none_is_false on_off : bool) : Markup :=
  let clr := "black" in
  let value := if none_is_false && is_None value then VBool false else value in
  let '(value, clr) :=
    if is_True value then
      (VStr (if on_off then "on" else "yes"), "green")
    else if is_False value then
      (VStr (if hide_no then "" else if on_off then "off" else "no"), "red")
    else if is_None value then
      (VStr "", clr)
    else (value, clr) in
  let clr := if negb is_colored then "black" else clr in
  mkMarkup (span clr (py_str value)).

(** The grouping of [nformat]: the characters of [text] from the last to the
    first, the separator after each one whose index is a non-zero multiple
    of three, back in order and joined. *)
Definition group_digits (separator : string) (text : string) : string :=
  join "" (rev (map (fun ix : Z * ascii =>
                       let '(i, x) := ix in
                       String x "" ++
                       (if negb (i =? 0) && (i mod 3 =? 0) then separator else ""))
                    (enumerate (rev (chars text))))).

Definition nformat (value : object) (prefix suffix separator : string)
    (hide_zero : bool) (digits : Z) : result string :=
  if is_None value || eq_str value "" then Ok ""
  else
    num <- py_float value ;;
    if float_eq_int num 0 then
      if hide_zero then Ok "" else Ok (prefix ++ "0" ++ suffix)
    else
      formatted <- (if float_gt_int num 1000 then
                      n <- int_of_float num ;;
                      Ok (group_digits separator (str_int n))
                    else
                      r <- float_round num digits ;;
                      Ok (repr_float r)) ;;
      Ok (prefix ++ formatted ++ suffix).

(** ** [json.dumps] with its default options *)

(** One character of a JSON string with [ensure_ascii]: the short escapes,
    the printable ASCII characters as they are, [\u00XX] for the rest. *)
Definition json_escape_char (c : ascii) : string :=
  let n := code c in
  if Ascii.eqb c quote2 then String backslash (String quote2 "")
  else if Ascii.eqb c backslash then String backslash (String backslash "")
  else if n =? 10 then String backslash "n"
  else if n =? 13 then String backslash "r"
  else if n =? 9 then String backslash "t"
  else if n =? 12 then String backslash "f"
  else if n =? 8 then String backslash "b"
  else if (32 <=? n) && (n <=? 126) then String c ""
  else String backslash
         (String "u" (String "0" (String "0"
            (String (hex_digit (n / 16)) (String (hex_digit (n mod 16)) ""))))).

Definition json_encode_str (s : string) : string :=
  String quote2 (concat "" (map json_escape_char (chars s))) ++ String quote2 "".

Definition json_encode_float (x : float) : string :=
  match x with
  | S754_nan => "NaN"
  | S754_infinity s => if s then "-Infinity" else "Infinity"
  | _ => repr_float x
  end.

Definition not_serializable {A : Type} (cls : string) : result A :=
  Raise (mkExc TypeError ("Object of type " ++ cls ++ " is not JSON serializable")).

(** The results of [f] on the items of [l], up to the first that raises. *)
Definition mapM {A B : Type} (f : A -> result B) : list A -> result (list B) :=
  fix each (l : list A) : result (list B) :=
    match l with
    | [] => Ok []
    | x :: r => c <- f x ;; cs <- each r ;; Ok (c :: cs)
    end.

Fixpoint json_dumps (o : object) : result string :=
  match o with
  | VNone => Ok "null"
  | VBool b => Ok (if b then "true" else "false")
  | VInt n => Ok (str_int n)
  | VFloat x => Ok (json_encode_float x)
  | VStr s => Ok (json_encode_str s)
  | VList l | VTuple l =>
      chunks <- mapM json_dumps l ;;
      Ok ("[" ++ join ", " chunks ++ "]")
  | VDict d =>
      chunks <- mapM (fun kv => c <- json_dumps (snd kv) ;;
                                Ok (json_encode_str (fst kv) ++ ": " ++ c)) d ;;
      Ok ("{" ++ join ", " chunks ++ "}")
  | VDecimal _ => not_serializable "Decimal"
  | VDatetime _ => not_serializable "datetime"
  end.

Definition to_json (data : object) : result string := json_dumps data.

(** ** The table of filters *)







(** ** globals.py *)

Definition raise_ {A : Type} (msg : string) : result A :=
  Raise (mkExc RuntimeError msg).

(** ** [json.loads], the decoder of the round trip

    [None] stands for a [JSONDecodeError]. An escape [\uXXXX] above [00ff]
    names a code point that [string] does not hold: the model refuses it. *)
















Section Containers.
(** The scanner of one value, for the items of an array or object. *)
Variable scan_once : list ascii -> option (object * list ascii).




End Containers.



(** ** The vocabulary of [yes_no] *)

Definition vocabulary : list string := [""; "yes"; "no"; "on"; "off"].
Definition colors : list string := ["black"; "green"; "red"].

(** ** JSON-representable objects *)






(** A float literal [m e exp] of the source text: the nearest double. *)
Definition float_lit (m e : Z) : float := float_of_decimal false m e.

(** The items of [l], each with the number of items after it. *)
Fixpoint count_right {A : Type} (l : list A) : list (Z * A) :=
  match l with
  | [] => []
  | x :: r => (Z.of_nat (List.length r), x) :: count_right r
  end.

(** A character and, when a non-zero multiple of three characters follow it,
    the separator. *)
Definition group_piece (separator : string) (kx : Z * ascii) : string :=
  let '(k, x) := kx in
  String x "" ++ (if negb (k =? 0) && (k mod 3 =? 0) then separator else "").




(** The value of the decimal digits [ds] read after [acc]. *)
Definition digits_value (ds : list ascii) (acc : Z) : Z :=
  fold_left (fun a c => 10 * a + digit_val c) ds acc.




(** ** The characters of a text *)

(** A printable ASCII character: space to tilde. *)
Definition is_plain (c : ascii) : bool := (32 <=? code c) && (code c <=? 126).

(** A character that a JSON string holds as it is: printable ASCII, and
    neither the double quote nor the backslash. *)
Definition is_unescaped (c : ascii) : bool :=
  is_plain c && negb (Ascii.eqb c quote2) && negb (Ascii.eqb c backslash).

(** Every character of [s] satisfies [p]. *)
Definition all_chars (p : ascii -> bool) (s : string) : Prop :=
  forall c, In c (chars s) -> p c = true.

(** The text has a decimal point or the [e] of an exponent. *)
Definition has_point_or_exponent (s : string) : bool :=
  mem_char "." s || mem_char "e" s.

(** The characters of [l] that the separator does not hold. *)
Definition without_chars_of (separator : string) (l : list ascii) : list ascii :=
  filter (fun c => negb (mem_char c separator)) l.

(** ** Whole numbers up to 1000 *)

(** The integers from [lo], [count] of them. *)
Definition int_range (lo : Z) (count : nat) : list Z :=
  map (fun i => lo + Z.of_nat i) (seq 0 count).

(** [nformat] of the integer [n] under [digits] takes the branch of the
    values up to 1000 and writes [n] with [.0] after it. *)
Definition whole_text_ok (digits n : Z) : bool :=
  let x := float_of_Z n in
  is_finite x && negb (float_eq_int x 0) && negb (float_gt_int x 1000) &&
  match float_round x digits with
  | Ok r => String.eqb (repr_float r) (str_int n ++ ".0")
  | Raise _ => false
  end.

(** ** What [json.dumps] encodes, and what [json.loads] gives back *)





(* ================================================================= *)
(** * Properties *)

(** ** Floats against the constants of [nformat] *)

Lemma float_of_Z_0 : float_of_Z 0 = S754_zero false.
Proof. reflexivity. Qed.

Lemma float_of_Z_1000 :
  float_of_Z 1000 = S754_finite false 8796093022208000 (-43).
Proof. vm_compute. reflexivity. Qed.

(** A float below zero is a negative infinity or a negative finite float. *)
Lemma float_lt_0_inv (x : float) :
  float_lt_int x 0 = true ->
  x = S754_infinity true \/ exists m e, x = S754_finite true m e.
Proof.
  unfold float_lt_int, float_gt. rewrite float_of_Z_0.
  destruct x as [s | s | | s m e]; cbn; try discriminate.
  - destruct s; [auto | discriminate].
  - destruct s; [eauto | discriminate].
Qed.

Lemma float_lt_0_not_zero (x : float) :
  float_lt_int x 0 = true -> float_eq_int x 0 = false.
Proof.
  intros H. destruct (float_lt_0_inv x H) as [-> | (m & e & ->)]; reflexivity.
Qed.

Lemma float_lt_0_not_gt_1000 (x : float) :
  float_lt_int x 0 = true -> float_gt_int x 1000 = false.
Proof.
  intros H. unfold float_gt_int. rewrite float_of_Z_1000.
  destruct (float_lt_0_inv x H) as [-> | (m & e & ->)]; reflexivity.
Qed.

(** [float] raises on [None] and on the empty string: an input that
    coerces is neither. *)
Lemma py_float_Ok_not_blank (v : object) (num : float) :
  py_float v = Ok num -> is_None v || eq_str v "" = false.
Proof.
  destruct v; cbn; try reflexivity; try discriminate.
  destruct s as [| c s]; [discriminate | reflexivity].
Qed.

Lemma int_of_float_finite (x : float) :
  is_finite x = true -> int_of_float x = Ok (trunc x).
Proof. destruct x; cbn; congruence. Qed.

(** ** [nformat]: the three branches *)

Section NformatBranches.
Variables (v : object) (num : float).
Variables (prefix suffix separator : string) (hide_zero : bool) (digits : Z).
Hypothesis Hnum : py_float v = Ok num.

Lemma nformat_unfold :
  nformat v prefix suffix separator hide_zero digits =
    if float_eq_int num 0 then
      if hide_zero then Ok "" else Ok (prefix ++ "0" ++ suffix)
    else
      formatted <- (if float_gt_int num 1000 then
                      n <- int_of_float num ;;
                      Ok (group_digits separator (str_int n))
                    else
                      r <- float_round num digits ;;
                      Ok (repr_float r)) ;;
      Ok (prefix ++ formatted ++ suffix).
Proof.
  unfold nformat. rewrite (py_float_Ok_not_blank v num Hnum), Hnum.
  reflexivity.
Qed.

Lemma nformat_zero_branch :
  float_eq_int num 0 = true ->
  nformat v prefix suffix separator hide_zero digits =
    if hide_zero then Ok "" else Ok (prefix ++ "0" ++ suffix).
Proof. intros H. rewrite nformat_unfold, H. reflexivity. Qed.

Lemma nformat_large_branch :
  float_gt_int num 1000 = true ->
  nformat v prefix suffix separator hide_zero digits =
    (n <- int_of_float num ;;
     Ok (prefix ++ group_digits separator (str_int n) ++ suffix)).
Proof.
  intros H. rewrite nformat_unfold, H.
  assert (float_eq_int num 0 = false) as ->.
  { revert H. unfold float_gt_int, float_eq_int, float_gt, float_eq.
    rewrite float_of_Z_1000, float_of_Z_0.
    destruct num as [s | s | | s m e]; cbn; intros H'; try discriminate H';
      try reflexivity; destruct s; try discriminate H'; reflexivity. }
  destruct (int_of_float num); reflexivity.
Qed.

Lemma nformat_small_branch :
  float_eq_int num 0 = false ->
  float_gt_int num 1000 = false ->
  nformat v prefix suffix separator hide_zero digits =
    (r <- float_round num digits ;;
     Ok (prefix ++ repr_float r ++ suffix)).
Proof.
  intros H0 H1. rewrite nformat_unfold, H0, H1.
  destruct (float_round num digits); reflexivity.
Qed.
End NformatBranches.



(** ** [yes_no] *)

(** Finds the color and the word of a span that is given in full. *)
Ltac close_span :=
  split; [cbn; tauto | split; [cbn; tauto | reflexivity]].

Ltac pick_span_with clr :=
  first [ exists clr, ""; close_span
        | exists clr, "yes"; close_span
        | exists clr, "no"; close_span
        | exists clr, "on"; close_span
        | exists clr, "off"; close_span ].

Ltac pick_span :=
  first [ pick_span_with constr:("black")
        | pick_span_with constr:("green")
        | pick_span_with constr:("red") ].

(** On [True], [False] and [None] the text of the span is one of the five
    fixed words and the color one of the three keywords. *)
Lemma yes_no_fixed_vocabulary (value : object)
    (is_colored hide_no none_is_false on_off : bool) :
  is_None value || is_True value || is_False value = true ->
  exists clr text,
    In clr colors /\ In text vocabulary /\
    yes_no value is_colored hide_no none_is_false on_off = mkMarkup (span clr text).
Proof.
  intros Hv.
  destruct value as [| [|] | | | | | | | |]; try discriminate Hv;
    destruct is_colored, hide_no, none_is_false, on_off;
    pick_span.
Qed.

(** Every other object goes into the span as its [str], in black. *)
Lemma yes_no_passes_through (value : object)
    (is_colored hide_no none_is_false on_off : bool) :
  is_None value || is_True value || is_False value = false ->
  yes_no value is_colored hide_no none_is_false on_off =
    mkMarkup (span "black" (py_str value)).
Proof.
  intros Hv.
  destruct value as [| [|] | | | | | | | |]; try discriminate Hv;
    destruct is_colored, none_is_false; reflexivity.
Qed.

(** C1, at the input where the code leaves the vocabulary: [yes_no] of a
    [str] that is HTML puts that text, as it is, into the span it marks as
    safe, and the text is none of the five fixed words; so it does with
    every [str], under every choice of the options. *)
Theorem yes_no_str_reaches_markup :
  yes_no (VStr "<script>alert(1)</script>") true false false false
    = mkMarkup "<span style='color: black;'><script>alert(1)</script></span>"
  /\ existsb (String.eqb "<script>alert(1)</script>") vocabulary = false
  /\ (forall (s : string) (is_colored hide_no none_is_false on_off : bool),
        yes_no (VStr s) is_colored hide_no none_is_false on_off
        = mkMarkup (span "black" s)).
Proof.
  split; [reflexivity |]. split; [reflexivity |].
  intros s is_colored hide_no none_is_false on_off.
  apply (yes_no_passes_through (VStr s)). reflexivity.
Qed.

(** ** [nformat] *)

(** C2, as stated, fails at [nformat(-1234567, separator=",")]: the input
    is negative, its truncation is [-1234567], and the result is not the
    grouping of that text. *)
Lemma nformat_negative_counterexample :
  exists num n,
    py_float (VInt (-1234567)) = Ok num /\
    float_lt_int num 0 = true /\
    int_of_float num = Ok n /\
    group_digits "," (str_int n) = "-1,234,567" /\
    nformat (VInt (-1234567)) "" "" "," false 2 = Ok "-1234567.0" /\
    (nformat (VInt (-1234567)) "" "" "," false 2
       = Ok ("" ++ group_digits "," (str_int n) ++ "") -> False).
Proof.
  exists (float_of_Z (-1234567)), (-1234567).
  repeat split; try (vm_compute; reflexivity).
  vm_compute. discriminate.
Qed.

(** C2, amended: a negative input takes the branch of the values not above
    1000: the result is the prefix, the text of the input rounded to
    [digits] places, and the suffix; the separator has no part in it. *)
Theorem nformat_negative_rounds
    (v : object) (num : float) (prefix suffix separator : string)
    (hide_zero : bool) (digits : Z) :
  py_float v = Ok num ->
  float_lt_int num 0 = true ->
  nformat v prefix suffix separator hide_zero digits =
    (r <- float_round num digits ;; Ok (prefix ++ repr_float r ++ suffix)).
Proof.
  intros Hnum Hneg.
  apply nformat_small_branch; auto using float_lt_0_not_zero, float_lt_0_not_gt_1000.
Qed.

Lemma nformat_negative_rounds_witness :
  py_float (VInt (-1234567)) = Ok (float_of_Z (-1234567)) /\
  float_lt_int (float_of_Z (-1234567)) 0 = true /\
  nformat (VInt (-1234567)) "$" "" "," false 2 =
    (r <- float_round (float_of_Z (-1234567)) 2 ;; Ok ("$" ++ repr_float r ++ "")).
Proof.
  split; [reflexivity |]. split; [reflexivity |].
  apply (nformat_negative_rounds (VInt (-1234567)) (float_of_Z (-1234567)));
    reflexivity.
Defined.

Lemma enumerate_from_app {A : Type} (i : Z) (l : list A) (x : A) :
  enumerate_from i (l ++ [x])
  = (enumerate_from i l ++ [(i + Z.of_nat (List.length l), x)])%list.
Proof.
  revert i. induction l as [| y l IH]; intros i; cbn [app enumerate_from List.length].
  - rewrite Z.add_0_r. reflexivity.
  - rewrite IH. do 4 f_equal. lia.
Qed.

(** Counting from the last item backwards is counting what follows. *)
Lemma rev_enumerate_rev {A : Type} (l : list A) :
  rev (enumerate (rev l)) = count_right l.
Proof.
  unfold enumerate. induction l as [| x l IH]; [reflexivity |].
  cbn [rev count_right]. rewrite enumerate_from_app, rev_app_distr.
  cbn [rev app]. rewrite IH, length_rev. reflexivity.
Qed.

(** [group_digits] puts the separator after each character that a non-zero
    multiple of three characters follow. *)
Lemma group_digits_from_the_right (separator text : string) :
  group_digits separator text
  = join "" (map (group_piece separator) (count_right (chars text))).
Proof.
  unfold group_digits. rewrite <- map_rev, rev_enumerate_rev. reflexivity.
Qed.

(** A finite non-zero float is a ratio of two positive integers. *)
Lemma ratio_of_float_pos (s : bool) (m : positive) (e : Z) :
  0 < fst (ratio_of_float (S754_finite s m e))
  /\ 0 < snd (ratio_of_float (S754_finite s m e)).
Proof.
  cbn [ratio_of_float]. destruct (Z.leb_spec 0 e); cbn [fst snd].
  - pose proof (Z.pow_pos_nonneg 2 e ltac:(lia) ltac:(lia)). lia.
  - pose proof (Z.pow_pos_nonneg 2 (- e) ltac:(lia) ltac:(lia)). lia.
Qed.




(** C4: an input that coerces to zero gives the prefix, ["0"] and the
    suffix, whatever [digits] and the separator are, and the empty string
    under [hide_zero]; [nformat(0)] is ["0"] and [nformat(0, hide_zero=True)]
    is the empty string. *)
Theorem nformat_zero
    (v : object) (num : float) (prefix suffix separator : string) (digits : Z) :
  py_float v = Ok num ->
  float_eq_int num 0 = true ->
  nformat v prefix suffix separator false digits = Ok (prefix ++ "0" ++ suffix)
  /\ nformat v prefix suffix separator true digits = Ok ""
  /\ nformat (VInt 0) "" "" "" false 2 = Ok "0"
  /\ nformat (VInt 0) "" "" "" true 2 = Ok "".
Proof.
  intros Hnum Hz. repeat split.
  - apply (nformat_zero_branch v num prefix suffix separator false digits Hnum Hz).
  - apply (nformat_zero_branch v num prefix suffix separator true digits Hnum Hz).
Qed.

Lemma nformat_zero_witness :
  py_float (VStr "-0.00") = Ok (S754_zero true) /\
  float_eq_int (S754_zero true) 0 = true /\
  nformat (VStr "-0.00") "$" " USD" "," false 5 = Ok "$0 USD" /\
  nformat (VStr "-0.00") "$" " USD" "," true 5 = Ok "".
Proof.
  split; [vm_compute; reflexivity |]. split; [reflexivity |].
  destruct (nformat_zero (VStr "-0.00") (S754_zero true) "$" " USD" "," 5)
    as (H1 & H2 & _); [vm_compute; reflexivity | reflexivity |].
  split; [exact H1 | exact H2].
Defined.

(** ** [empty] *)

(** C5: [empty] gives the empty string for [None] and for a sequence of
    length zero, and gives back every other input as it is; [empty(0)] is
    [0] and [empty(False)] is [False]. *)
Theorem empty_collapses_only_none_and_empty_sequences (value : object) :
  (is_None value = true -> empty value = Ok (VStr ""))
  /\ (is_Sequence value = true -> py_len value = Ok 0 ->
      empty value = Ok (VStr ""))
  /\ (is_None value = false ->
      (is_Sequence value = false \/ exists n, py_len value = Ok n /\ n <> 0) ->
      empty value = Ok value)
  /\ empty (VInt 0) = Ok (VInt 0)
  /\ empty (VBool false) = Ok (VBool false).
Proof.
  repeat split.
  - intros H. unfold empty. rewrite H. reflexivity.
  - intros Hs Hl. unfold empty. rewrite Hs, Hl.
    destruct (is_None value); reflexivity.
  - intros Hn [Hs | (n & Hl & Hnz)]; unfold empty; rewrite Hn.
    + rewrite Hs. reflexivity.
    + rewrite Hl. destruct (is_Sequence value); cbn; [| reflexivity].
      destruct (Z.eqb_spec n 0); [contradiction | reflexivity].
Qed.

Lemma empty_collapses_only_none_and_empty_sequences_witness :
  empty (VTuple []) = Ok (VStr "")
  /\ empty (VDict []) = Ok (VDict [])
  /\ empty (VStr "0") = Ok (VStr "0").
Proof.
  split; [| split].
  - destruct (empty_collapses_only_none_and_empty_sequences (VTuple []))
      as (_ & H & _). apply H; reflexivity.
  - destruct (empty_collapses_only_none_and_empty_sequences (VDict []))
      as (_ & _ & H & _). apply H; [reflexivity | left; reflexivity].
  - destruct (empty_collapses_only_none_and_empty_sequences (VStr "0"))
      as (_ & _ & H & _). apply H; [reflexivity |].
    right. exists 1. split; [reflexivity | discriminate].
Defined.

(** [empty] never raises: the length is asked of sequences only. *)
Lemma empty_returns (value : object) : returns (empty value).
Proof.
  unfold returns, empty.
  destruct value as [| b | n | x | s | l | l | d | d | d]; cbn; eauto;
    match goal with |- context [if ?c then _ else _] => destruct c end; eauto.
Qed.

Lemma empty_examples :
  empty VNone = Ok (VStr "")
  /\ empty (VStr "") = Ok (VStr "")
  /\ empty (VList []) = Ok (VStr "")
  /\ empty (VTuple []) = Ok (VStr "")
  /\ empty (VDict []) = Ok (VDict [])
  /\ empty (VFloat (S754_zero false)) = Ok (VFloat (S754_zero false))
  /\ empty (VList [VNone]) = Ok (VList [VNone]).
Proof. repeat split. Qed.

(** ** Absent inputs *)

(** C6: on [None], [timestamp] and [nformat] give the empty string, and
    [nformat] gives it on the empty string too, whatever the options. *)
Theorem absent_input_gives_empty_string
    `{Platform} (format_ prefix suffix separator : string)
    (hide_zero : bool) (digits : Z) :
  timestamp VNone format_ = Ok ""
  /\ nformat VNone prefix suffix separator hide_zero digits = Ok ""
  /\ nformat (VStr "") prefix suffix separator hide_zero digits = Ok "".
Proof. repeat split. Qed.

(** ** Errors of [nformat] *)

(** An input that does not coerce raises the error of [float]. *)
Lemma nformat_propagates_conversion_error
    (v : object) (e : exception) (prefix suffix separator : string)
    (hide_zero : bool) (digits : Z) :
  is_None v || eq_str v "" = false ->
  py_float v = Raise e ->
  nformat v prefix suffix separator hide_zero digits = Raise e.
Proof. intros Hb He. unfold nformat. rewrite Hb, He. reflexivity. Qed.

(** C7, at the inputs where the code raises although the input coerces:
    the float infinity, as a float and as the text ["inf"], coerces and is
    above 1000, and [nformat] raises the [OverflowError] of [int]; the
    lowest finite double rounded to hundreds of digits before the point
    raises the [OverflowError] of [round]. *)
Theorem nformat_raises_on_coercible_input
    (prefix suffix separator : string) (hide_zero : bool) (digits : Z) :
  py_float (VFloat (S754_infinity false)) = Ok (S754_infinity false)
  /\ py_float (VStr "inf") = Ok (S754_infinity false)
  /\ nformat (VFloat (S754_infinity false)) prefix suffix separator hide_zero digits
     = Raise (mkExc OverflowError "cannot convert float infinity to integer")
  /\ nformat (VStr "inf") prefix suffix separator hide_zero digits
     = Raise (mkExc OverflowError "cannot convert float infinity to integer")
  /\ nformat (VFloat (SFopp (SFmax_float prec emax))) prefix suffix separator
       hide_zero (-308)
     = Raise (mkExc OverflowError "rounded value too large to represent").
Proof.
  split; [reflexivity |]. split; [vm_compute; reflexivity |].
  split; [reflexivity |]. split.
  - rewrite (nformat_large_branch (VStr "inf") (S754_infinity false));
      reflexivity.
  - rewrite (nformat_small_branch (VFloat (SFopp (SFmax_float prec emax)))
               (SFopp (SFmax_float prec emax)));
      [vm_compute; reflexivity | reflexivity ..].
Qed.

(** ** [raise_] *)

(** C8: for every message, [raise_] raises a [RuntimeError] whose
    description is the message, and returns no value. *)
Theorem raise_always_raises (A : Type) (msg : string) :
  @raise_ A msg = Raise (mkExc RuntimeError msg)
  /\ raises (@raise_ A msg)
  /\ (forall e, @raise_ A msg = Raise e ->
                exc_type e = RuntimeError /\ exc_msg e = msg)
  /\ (forall a : A, @raise_ A msg = Ok a -> False).
Proof.
  split; [reflexivity |]. split; [| split].
  - exists (mkExc RuntimeError msg). reflexivity.
  - intros e He. injection He as <-. split; reflexivity.
  - intros a Ha. discriminate Ha.
Qed.

(** ** Lists of characters *)

Lemma chars_str_of_chars (l : list ascii) : chars (str_of_chars l) = l.
Proof. apply list_ascii_of_string_of_list_ascii. Qed.

Lemma str_of_chars_chars (s : string) : str_of_chars (chars s) = s.
Proof. apply string_of_list_ascii_of_string. Qed.

(** * The round trip of [to_json] *)

(** ** Characters of strings *)

Lemma chars_String (c : ascii) (s : string) : chars (String c s) = c :: chars s.
Proof. reflexivity. Qed.

Lemma chars_app (a b : string) : chars (a ++ b) = (chars a ++ chars b)%list.
Proof.
  induction a as [| c a IH]; cbn; [reflexivity |].
  fold (chars (a ++ b)). fold (chars a). rewrite IH. reflexivity.
Qed.

(** ** The decimal text of an [int] *)

Lemma uint_chars_are_digits (u : Decimal.uint) :
  Forall (fun c => is_digit c = true) (chars (NilEmpty.string_of_uint u)).
Proof.
  induction u; cbn; constructor; try reflexivity; assumption.
Qed.

Lemma digits_value_uint_acc (u : Decimal.uint) (acc : positive) :
  digits_value (chars (NilEmpty.string_of_uint u)) (Z.pos acc)
  = Z.pos (Pos.of_uint_acc u acc).
Proof.
  revert acc. unfold digits_value.
  induction u; intros acc; cbn [NilEmpty.string_of_uint chars list_ascii_of_string
                                fold_left Pos.of_uint_acc];
    [reflexivity | ..];
    fold (chars (NilEmpty.string_of_uint u)); rewrite <- IHu;
    match goal with
    | |- fold_left ?f ?l ?a = fold_left ?f ?l ?b =>
        replace a with b; [reflexivity |]
    end;
    match goal with
    | |- context [digit_val ?c] =>
        let k := eval vm_compute in (digit_val c) in
        change (digit_val c) with k
    end; lia.
Qed.

Lemma digits_value_uint (u : Decimal.uint) :
  digits_value (chars (NilEmpty.string_of_uint u)) 0 = Z.of_N (Pos.of_uint u).
Proof.
  induction u; cbn [NilEmpty.string_of_uint chars list_ascii_of_string Pos.of_uint];
    [reflexivity | ..];
    fold (chars (NilEmpty.string_of_uint u));
    try (change (Z.of_N (N.pos ?p)) with (Z.pos p));
    try (rewrite <- digits_value_uint_acc; reflexivity).
  exact IHu.
Qed.








Lemma nzhead_not_D0 (u w : Decimal.uint) : Decimal.nzhead u <> Decimal.D0 w.
Proof. induction u; cbn; try discriminate. exact IHu. Qed.

Ltac to_uint_head_case Hd :=
  cbn [NilEmpty.string_of_uint] in Hd |- *; rewrite chars_String in Hd |- *;
  eexists _, _; split; [reflexivity |];
  inversion Hd; subst; auto.

(** The digits of a positive number do not start with a zero. *)
Lemma to_uint_head (p : positive) :
  exists c ds,
    chars (NilEmpty.string_of_uint (Pos.to_uint p)) = c :: ds /\
    is_digit c = true /\ Ascii.eqb c "0" = false /\
    Forall (fun c => is_digit c = true) ds.
Proof.
  pose proof (Unsigned.to_of (Pos.to_uint p)) as H.
  rewrite Unsigned.of_to in H. cbn [N.to_uint] in H.
  pose proof (Unsigned.to_uint_nonzero p) as Hz.
  pose proof (uint_chars_are_digits (Pos.to_uint p)) as Hd.
  destruct (Pos.to_uint p) as [| u | u | u | u | u | u | u | u | u | u] eqn:E.
  - discriminate H.
  - exfalso. rewrite unorm_D0 in H. unfold Decimal.unorm in H.
    destruct (Decimal.nzhead u) eqn:En; try discriminate H.
    + injection H as Hu. subst u. apply Hz. reflexivity.
    + exact (nzhead_not_D0 u _ En).
  - to_uint_head_case Hd.
  - to_uint_head_case Hd.
  - to_uint_head_case Hd.
  - to_uint_head_case Hd.
  - to_uint_head_case Hd.
  - to_uint_head_case Hd.
  - to_uint_head_case Hd.
  - to_uint_head_case Hd.
  - to_uint_head_case Hd.
Qed.

Lemma str_int_pos (p : positive) :
  str_int (Z.pos p) = NilEmpty.string_of_uint (Pos.to_uint p).
Proof.
  unfold str_int. cbn [Z.to_int NilZero.string_of_int].
  pose proof (Unsigned.to_uint_nonnil p) as H.
  destruct (Pos.to_uint p); [contradiction | reflexivity ..].
Qed.

Lemma str_int_neg (p : positive) :
  str_int (Z.neg p) = String "-" (NilEmpty.string_of_uint (Pos.to_uint p)).
Proof.
  unfold str_int. cbn [Z.to_int NilZero.string_of_int].
  pose proof (Unsigned.to_uint_nonnil p) as H.
  destruct (Pos.to_uint p); [contradiction | reflexivity ..].
Qed.

Lemma digits_value_to_uint (p : positive) :
  digits_value (chars (NilEmpty.string_of_uint (Pos.to_uint p))) 0 = Z.pos p.
Proof. rewrite digits_value_uint, Unsigned.of_to. reflexivity. Qed.





(** ** The text of a [str] *)


Lemma append_empty_r (s : string) : s ++ "" = s.
Proof. induction s as [| c s IH]; cbn; [reflexivity |]. f_equal. exact IH. Qed.

Lemma concat_empty_cons (x : string) (xs : list string) :
  concat "" (x :: xs) = x ++ concat "" xs.
Proof.
  destruct xs as [| y ys]; cbn [concat]; [| reflexivity].
  symmetry. apply append_empty_r.
Qed.



(** ** A number before a delimiter *)








(** ** Atoms *)










(** ** Arrays *)

Lemma join_cons2 (sep t t' : string) (ts : list string) :
  join sep (t :: t' :: ts) = t ++ sep ++ join sep (t' :: ts).
Proof. reflexivity. Qed.






Lemma mapM_cons {A B : Type} (f : A -> result B) (x : A) (r : list A) :
  mapM f (x :: r) = (c <- f x ;; cs <- mapM f r ;; Ok (c :: cs)).
Proof. reflexivity. Qed.





(** ** Objects *)

















(** * The text of a rounded float *)




(** ** The digits of [repr] *)

Lemma length_chars (s : string) : List.length (chars s) = String.length s.
Proof. induction s as [| c s IH]; cbn; [reflexivity |]. f_equal. exact IH. Qed.

Lemma digit_val_range (c : ascii) :
  is_digit c = true -> 0 <= digit_val c <= 9.
Proof.
  unfold is_digit, digit_val. intros H. apply andb_prop in H as [H1 H2]. lia.
Qed.

Lemma digit_val_nonzero (c : ascii) :
  is_digit c = true -> Ascii.eqb c "0" = false -> 1 <= digit_val c.
Proof.
  intros Hd Hz.
  destruct c as [[] [] [] [] [] [] [] []]; try discriminate Hd;
    try discriminate Hz; vm_compute; discriminate.
Qed.

(** Digits read after [acc] give a number from [acc * 10^n] up to, not
    including, [(acc + 1) * 10^n]. *)
Lemma digits_value_bounds (ds : list ascii) (acc : Z) :
  Forall (fun c => is_digit c = true) ds ->
  0 <= acc ->
  acc * 10 ^ Z.of_nat (List.length ds) <= digits_value ds acc
  < (acc + 1) * 10 ^ Z.of_nat (List.length ds).
Proof.
  intros Hds. revert acc. unfold digits_value.
  induction Hds as [| c ds Hc _ IH]; intros acc Hacc.
  - cbn. lia.
  - cbn [fold_left List.length]. rewrite Nat2Z.inj_succ, Z.pow_succ_r by lia.
    pose proof (digit_val_range c Hc) as Hr.
    specialize (IH (10 * acc + digit_val c) ltac:(lia)).
    pose proof (Z.pow_pos_nonneg 10 (Z.of_nat (List.length ds)) ltac:(lia) ltac:(lia)).
    nia.
Qed.

(** The number of digits of a positive number, by powers of ten. *)
Lemma ndigits10_bounds (a : Z) :
  0 < a ->
  1 <= ndigits10 a /\ 10 ^ (ndigits10 a - 1) <= a < 10 ^ ndigits10 a.
Proof.
  intros Ha. destruct a as [| p | p]; try lia.
  unfold ndigits10. rewrite str_int_pos, <- length_chars.
  destruct (to_uint_head p) as (c & ds & E & Hc & Hz & Hds).
  pose proof (digits_value_to_uint p) as V. rewrite E in V |- *.
  unfold digits_value in V. cbn [fold_left] in V.
  fold (digits_value ds (10 * 0 + digit_val c)) in V.
  pose proof (digit_val_range c Hc) as Hr.
  pose proof (digit_val_nonzero c Hc Hz) as Hn.
  pose proof (digits_value_bounds ds (10 * 0 + digit_val c) Hds ltac:(lia)) as B.
  rewrite V in B. cbn [List.length]. rewrite Nat2Z.inj_succ.
  replace (Z.succ (Z.of_nat (List.length ds)) - 1) with (Z.of_nat (List.length ds)) by lia.
  rewrite Z.pow_succ_r by lia.
  pose proof (Z.pow_pos_nonneg 10 (Z.of_nat (List.length ds)) ltac:(lia) ltac:(lia)).
  split; [lia |]. split; nia.
Qed.

(** [decimal_point p q] is the place of the first digit of [p / q]. *)
Lemma decimal_point_lower (p q : Z) :
  0 < p -> 0 < q ->
  let k := decimal_point p q in
  (1 <= k /\ q * 10 ^ (k - 1) <= p) \/ (k <= 0 /\ q <= p * 10 ^ (1 - k)).
Proof.
  intros Hp Hq. unfold decimal_point. cbn zeta.
  destruct (Z.leb_spec q p) as [Hle | Hlt].
  - left.
    assert (0 < p / q) as Ha by (apply Z.div_str_pos; lia).
    destruct (ndigits10_bounds (p / q) Ha) as (H1 & H2 & _).
    split; [exact H1 |].
    pose proof (Z.mul_div_le p q Hq). nia.
  - right.
    assert (0 < (q - 1) / p) as Hb by (apply Z.div_str_pos; lia).
    destruct (ndigits10_bounds ((q - 1) / p) Hb) as (H1 & _ & H3).
    split; [lia |].
    replace (1 - (1 - ndigits10 ((q - 1) / p))) with (ndigits10 ((q - 1) / p)) by lia.
    pose proof (Z.mod_pos_bound (q - 1) p Hp) as Hm.
    pose proof (Z.div_mod (q - 1) p ltac:(lia)) as Hd.
    nia.
Qed.

Lemma scale10_pos (p q d : Z) :
  0 < p -> 0 < q -> 0 < fst (scale10 p q d) /\ 0 < snd (scale10 p q d).
Proof.
  intros Hp Hq. unfold scale10. destruct (Z.leb_spec 0 d); cbn [fst snd].
  - pose proof (Z.pow_pos_nonneg 10 d ltac:(lia) ltac:(lia)). lia.
  - pose proof (Z.pow_pos_nonneg 10 (- d) ltac:(lia) ltac:(lia)). lia.
Qed.

(** From the first digit on, the scaled value is at least one. *)
Lemma scale10_ge_one (p q n : Z) :
  0 < p -> 0 < q -> 1 <= n ->
  snd (scale10 p q (n - decimal_point p q))
  <= fst (scale10 p q (n - decimal_point p q)).
Proof.
  intros Hp Hq Hn. pose proof (decimal_point_lower p q Hp Hq) as H.
  cbn zeta in H. set (k := decimal_point p q) in *.
  unfold scale10. destruct (Z.leb_spec 0 (n - k)) as [Hd | Hd]; cbn [fst snd].
  - pose proof (Z.pow_pos_nonneg 10 (n - k) ltac:(lia) ltac:(lia)) as Hpow.
    destruct H as [[Hk H] | [Hk H]].
    + pose proof (Z.pow_pos_nonneg 10 (k - 1) ltac:(lia) ltac:(lia)). nia.
    + pose proof (Z.pow_le_mono_r 10 (1 - k) (n - k) ltac:(lia) ltac:(lia)).
      nia.
  - destruct H as [[Hk H] | [Hk H]]; [| lia].
    pose proof (Z.pow_le_mono_r 10 (- (n - k)) (k - 1) ltac:(lia) ltac:(lia)).
    pose proof (Z.pow_pos_nonneg 10 (- (n - k)) ltac:(lia) ltac:(lia)).
    nia.
Qed.

Lemma float_of_decimal_zero (e : Z) :
  float_of_decimal false 0 e = S754_zero false.
Proof. unfold float_of_decimal. destruct (0 <=? e); reflexivity. Qed.

(** A candidate of [digits_try] is positive. *)
Lemma digits_try_pos (m : positive) (e p q k n c : Z) :
  0 < p -> 0 < q ->
  digits_try (S754_finite false m e) p q k n = Some c -> 0 < c.
Proof.
  intros Hp Hq. unfold digits_try.
  pose proof (scale10_pos p q (n - k) Hp Hq) as [HP HQ].
  destruct (scale10 p q (n - k)) as [P Q]. cbn [fst snd] in HP, HQ.
  assert (0 <= P / Q) as Hlo by (apply Z.div_pos; lia).
  destruct (Z.eqb_spec (P mod Q) 0) as [Hr | Hr].
  - intros H. injection H as <-.
    pose proof (Z.div_mod P Q ltac:(lia)). nia.
  - destruct (Z.eq_dec (P / Q) 0) as [E0 | E0].
    + rewrite E0, float_of_decimal_zero. cbn [SFcompare].
      destruct (match SFcompare (float_of_decimal false (0 + 1) (k - n))
                        (S754_finite false m e) with
                | Some Eq => true
                | _ => false
                end); intros H; [injection H as <-; lia | discriminate H].
    + destruct (match SFcompare (float_of_decimal false (P / Q) (k - n))
                        (S754_finite false m e) with
                | Some Eq => true
                | _ => false
                end),
               (match SFcompare (float_of_decimal false (P / Q + 1) (k - n))
                        (S754_finite false m e) with
                | Some Eq => true
                | _ => false
                end);
        try (destruct (2 * (P mod Q) ?= Q); try destruct (Z.even (P / Q)));
        intros H; try discriminate H; injection H as <-; lia.
Qed.

Lemma round_half_even_ge (p q : Z) :
  0 < q -> q <= p -> 1 <= round_half_even p q.
Proof.
  intros Hq Hp. unfold round_half_even.
  assert (1 <= p / q) by (apply Z.div_le_lower_bound; lia).
  destruct (2 * (p mod q) ?= q); try destruct (Z.even (p / q)); lia.
Qed.

Lemma digits_search_pos (fuel : nat) (m : positive) (e p q n : Z) :
  0 < p -> 0 < q -> 1 <= n ->
  0 < fst (digits_search fuel (S754_finite false m e) p q (decimal_point p q) n).
Proof.
  intros Hp Hq. revert n.
  induction fuel as [| fuel IH]; intros n Hn; cbn [digits_search].
  - pose proof (scale10_ge_one p q n Hp Hq Hn) as Hge.
    pose proof (scale10_pos p q (n - decimal_point p q) Hp Hq) as [_ HQ].
    destruct (scale10 p q (n - decimal_point p q)) as [P Q].
    cbn [fst snd] in *. pose proof (round_half_even_ge P Q HQ Hge). lia.
  - destruct (digits_try (S754_finite false m e) p q (decimal_point p q) n)
      as [c |] eqn:E.
    + cbn [fst]. exact (digits_try_pos m e p q _ n c Hp Hq E).
    + apply IH. lia.
Qed.

(** Stripping the zeros at the end of the digits of a positive number
    leaves its first digit. *)
Lemma drop_zeros_last (l : list ascii) (c : ascii) :
  Ascii.eqb c "0" = false -> drop_zeros (l ++ [c]) <> [].
Proof.
  intros Hc. induction l as [| d l IH]; cbn [app drop_zeros].
  - rewrite Hc. discriminate.
  - destruct (Ascii.eqb d "0"); [exact IH | discriminate].
Qed.

Lemma rstrip_zeros_str_int_nonempty (c : Z) :
  0 < c -> chars (rstrip_zeros (str_int c)) <> [].
Proof.
  intros Hc. destruct c as [| p | p]; try lia.
  rewrite str_int_pos.
  destruct (to_uint_head p) as (c0 & ds & E & _ & Hz & _).
  unfold rstrip_zeros. rewrite chars_str_of_chars, E. cbn [rev].
  intros H. apply (f_equal (@rev ascii)) in H. rewrite rev_involutive in H.
  exact (drop_zeros_last (rev ds) c0 Hz H).
Qed.

(** The digits of [repr] of a finite non-zero float: at least one, and the
    last one is no zero. *)
Lemma shortest_digits_nonempty (s : bool) (m : positive) (e : Z) :
  chars (fst (shortest_digits (S754_finite s m e))) <> [].
Proof.
  unfold shortest_digits. cbn [SFabs].
  pose proof (ratio_of_float_pos false m e) as [Hp Hq].
  destruct (ratio_of_float (S754_finite false m e)) as [p q].
  cbn [fst snd] in Hp, Hq.
  pose proof (digits_search_pos 16 m e p q 1 Hp Hq ltac:(lia)) as Hc.
  destruct (digits_search 16 (S754_finite false m e) p q (decimal_point p q) 1)
    as [c n].
  cbn [fst] in *. apply rstrip_zeros_str_int_nonempty, Hc.
Qed.

(** ** The text of a float is not padded *)












(* ================================================================= *)
(** * Further properties *)

(** ** [timestamp]: what it formats *)

(** X1: [timestamp] formats a datetime and an [int] only. A float, a
    [str], a Decimal, a list, a tuple and a dict give the empty string
    without a call of the platform; an [int] is formatted as the datetime
    that [fromtimestamp] gives for it, and a [bool], being an [int], as the
    second 0 or 1; and [timestamp] raises only what [strftime] or
    [fromtimestamp] raises. *)
Theorem timestamp_formats_datetime_and_int_only
    `{Platform} (format_ : string) :
  (forall x, timestamp (VFloat x) format_ = Ok "")
  /\ (forall s, timestamp (VStr s) format_ = Ok "")
  /\ (forall d, timestamp (VDecimal d) format_ = Ok "")
  /\ (forall l, timestamp (VList l) format_ = Ok "")
  /\ (forall l, timestamp (VTuple l) format_ = Ok "")
  /\ (forall d, timestamp (VDict d) format_ = Ok "")
  /\ (forall d, timestamp (VDatetime d) format_ = strftime d format_)
  /\ (forall n, timestamp (VInt n) format_
                = (d <- fromtimestamp n ;; timestamp (VDatetime d) format_))
  /\ (forall b : bool, timestamp (VBool b) format_
                = timestamp (VInt (if b then 1 else 0)) format_)
  /\ (forall value e,
        timestamp value format_ = Raise e <->
        (exists d, value = VDatetime d /\ strftime d format_ = Raise e)
        \/ (exists n, as_int value = Some n /\
              (fromtimestamp n = Raise e
               \/ exists d, fromtimestamp n = Ok d /\ strftime d format_ = Raise e))).
Proof.
  repeat (split; [reflexivity |]).
  intros value e. split.
  - destruct value as [| b | n | x | s | l | l | d | d | d];
      try (cbn; discriminate).
    + cbn [timestamp as_datetime as_int]. intros E. right.
      eexists. split; [reflexivity |].
      destruct (fromtimestamp _) as [d | e'] eqn:Ed; cbn [bind] in E; [right | left].
      * exists d. split; [reflexivity | exact E].
      * injection E as ->. reflexivity.
    + cbn [timestamp as_datetime as_int]. intros E. right.
      eexists. split; [reflexivity |].
      destruct (fromtimestamp _) as [d | e'] eqn:Ed; cbn [bind] in E; [right | left].
      * exists d. split; [reflexivity | exact E].
      * injection E as ->. reflexivity.
    + cbn [timestamp as_datetime]. intros E. left. eauto.
  - intros [(d & -> & E) | (n & Hn & [E | (d & Ed & E)])].
    + exact E.
    + destruct value; try discriminate Hn; injection Hn as <-;
        cbn [timestamp as_datetime as_int]; rewrite E; reflexivity.
    + destruct value; try discriminate Hn; injection Hn as <-;
        cbn [timestamp as_datetime as_int]; rewrite Ed; exact E.
Qed.

(** ** [yes_no]: the options *)

(** X2: [is_colored] changes the color and nothing else. For every value
    and every choice of the other options, the span without colors has
    the text of the span with colors and the color black; the color of the
    span with colors is black, green or red. *)
Theorem yes_no_uncolored_keeps_text (value : object)
    (hide_no none_is_false on_off : bool) :
  exists clr text,
    In clr colors
    /\ yes_no value true hide_no none_is_false on_off = mkMarkup (span clr text)
    /\ yes_no value false hide_no none_is_false on_off
       = mkMarkup (span "black" text).
Proof.
  destruct value as [| [|] | | | | | | | |];
    destruct hide_no, none_is_false, on_off;
    first [ eexists "black", _; split; [cbn; tauto | split; reflexivity]
          | eexists "green", _; split; [cbn; tauto | split; reflexivity]
          | eexists "red", _; split; [cbn; tauto | split; reflexivity] ].
Qed.



(** ** [empty]: a second application *)

(** X4: [empty] never raises; its result is the empty string or the value
    it was given, which then is neither [None] nor a sequence of length
    zero; and [empty] of its result is that result again. *)
Theorem empty_is_idempotent (value : object) :
  exists r,
    empty value = Ok r
    /\ (r = VStr "" \/
        (r = value /\ is_None r = false /\
         (is_Sequence r = false \/ exists n, py_len r = Ok n /\ 0 < n)))
    /\ empty r = Ok r.
Proof.
  destruct value as [| b | n | x | s | [| y l] | [| y l] | d | d | d];
    try (exists (VStr ""); split; [reflexivity |]; split; [left |]; reflexivity);
    try (eexists; split; [reflexivity |]; split; [| reflexivity];
         right; split; [reflexivity |]; split; [reflexivity |];
         left; reflexivity).
  - destruct s as [| c s].
    + exists (VStr ""). split; [reflexivity |]. split; [left |]; reflexivity.
    + exists (VStr (String c s)). split; [reflexivity |]. split; [| reflexivity].
      right. split; [reflexivity |]. split; [reflexivity |]. right.
      eexists. split; [reflexivity |]. cbn. lia.
  - exists (VList (y :: l)). split; [reflexivity |]. split; [| reflexivity].
    right. split; [reflexivity |]. split; [reflexivity |]. right.
    eexists. split; [reflexivity |]. cbn. lia.
  - exists (VTuple (y :: l)). split; [reflexivity |]. split; [| reflexivity].
    right. split; [reflexivity |]. split; [reflexivity |]. right.
    eexists. split; [reflexivity |]. cbn. lia.
Qed.

(** ** Texts that are not empty *)

Lemma append_nonempty_l (a b : string) : a <> "" -> a ++ b <> "".
Proof. destruct a; [congruence | discriminate]. Qed.

Lemma append_nonempty_r (a b : string) : b <> "" -> a ++ b <> "".
Proof. destruct a; [auto | discriminate]. Qed.

Lemma str_int_nonempty (n : Z) : str_int n <> "".
Proof.
  destruct n as [| p | p].
  - discriminate.
  - rewrite str_int_pos. destruct (to_uint_head p) as (c & ds & E & _).
    intros H. rewrite H in E. discriminate E.
  - rewrite str_int_neg. discriminate.
Qed.

Lemma join_empty_cons (p : string) (ps : list string) :
  join "" (p :: ps) = p ++ join "" ps.
Proof.
  destruct ps as [| q ps]; [cbn [join]; rewrite append_empty_r; reflexivity |].
  reflexivity.
Qed.

Lemma group_digits_nonempty (separator text : string) :
  text <> "" -> group_digits separator text <> "".
Proof.
  intros H. rewrite group_digits_from_the_right.
  destruct text as [| c text]; [congruence |].
  rewrite chars_String. cbn [count_right map]. rewrite join_empty_cons.
  discriminate.
Qed.

Lemma place_point_nonempty (ds : string) (decpt : Z) (add_dot_0 : bool) :
  ds <> "" -> place_point ds decpt add_dot_0 <> "".
Proof.
  intros H. unfold place_point.
  destruct (decpt <=? 0); [discriminate |].
  destruct (_ <=? decpt).
  - apply append_nonempty_l, H.
  - apply append_nonempty_r. discriminate.
Qed.

Lemma repr_float_nonempty (x : float) : repr_float x <> "".
Proof.
  destruct x as [s | s | | s m e]; cbn [repr_float];
    try (destruct s; discriminate); try discriminate.
  pose proof (shortest_digits_nonempty s m e) as Hne.
  destruct (shortest_digits (S754_finite s m e)) as [ds decpt].
  cbn [fst] in Hne.
  assert (ds <> "") as Hds by (intros ->; apply Hne; reflexivity).
  apply append_nonempty_r.
  destruct (_ || _).
  - apply append_nonempty_l, place_point_nonempty, Hds.
  - apply place_point_nonempty, Hds.
Qed.

(** ** [nformat]: the prefix and the suffix *)

(** X5: the prefix and the suffix of [nformat] are put around the
    formatted number and have no other effect. For every value and every
    choice of the other options, either the result is the empty string
    under every prefix and suffix, or there is one text, not empty, that
    every prefix and suffix are put around, or there is one exception that
    is raised under every prefix and suffix. *)
Theorem nformat_wraps_formatted_number
    (value : object) (separator : string) (hide_zero : bool) (digits : Z) :
  (forall prefix suffix,
      nformat value prefix suffix separator hide_zero digits = Ok "")
  \/ (exists body, body <> "" /\
        forall prefix suffix,
          nformat value prefix suffix separator hide_zero digits
          = Ok (prefix ++ body ++ suffix))
  \/ (exists e,
        forall prefix suffix,
          nformat value prefix suffix separator hide_zero digits = Raise e).
Proof.
  destruct (is_None value || eq_str value "") eqn:Hb.
  { left. intros. unfold nformat. rewrite Hb. reflexivity. }
  destruct (py_float value) as [num | e] eqn:Hnum.
  2:{ right; right. exists e. intros.
      apply nformat_propagates_conversion_error; assumption. }
  destruct (float_eq_int num 0) eqn:Hz.
  { destruct hide_zero.
    - left. intros. rewrite (nformat_zero_branch value num); auto.
    - right; left. exists "0". split; [discriminate |]. intros.
      rewrite (nformat_zero_branch value num); auto. }
  destruct (float_gt_int num 1000) eqn:Hgt.
  - destruct (int_of_float num) as [n | e] eqn:Hn.
    + right; left. exists (group_digits separator (str_int n)).
      split; [apply group_digits_nonempty, str_int_nonempty |]. intros.
      rewrite (nformat_large_branch value num); auto. rewrite Hn. reflexivity.
    + right; right. exists e. intros.
      rewrite (nformat_large_branch value num); auto. rewrite Hn. reflexivity.
  - destruct (float_round num digits) as [r | e] eqn:Hr.
    + right; left. exists (repr_float r).
      split; [apply repr_float_nonempty |]. intros.
      rewrite (nformat_small_branch value num); auto. rewrite Hr. reflexivity.
    + right; right. exists e. intros.
      rewrite (nformat_small_branch value num); auto. rewrite Hr. reflexivity.
Qed.

(** ** [nformat]: where it raises *)

Lemma int_of_float_above_1000 (num : float) (e : exception) :
  float_gt_int num 1000 = true ->
  int_of_float num = Raise e ->
  num = S754_infinity false
  /\ e = mkExc OverflowError "cannot convert float infinity to integer".
Proof.
  unfold float_gt_int, float_gt. rewrite float_of_Z_1000.
  destruct num as [s | [|] | | s m ex]; cbn; try discriminate.
  intros _ H. injection H as <-. split; reflexivity.
Qed.

(** X6: [nformat] raises in three cases and no other: the input is
    neither [None] nor the empty string and [float] raises on it, and the
    error is that of [float]; the input coerces to the positive infinity,
    and the error is the [OverflowError] of [int]; the input coerces to a
    non-zero value not above 1000 whose rounding overflows, and the error
    is the [OverflowError] of [round]. *)
Theorem nformat_raises_exactly
    (value : object) (prefix suffix separator : string)
    (hide_zero : bool) (digits : Z) (e : exception) :
  nformat value prefix suffix separator hide_zero digits = Raise e <->
  is_None value || eq_str value "" = false /\
  (py_float value = Raise e
   \/ (py_float value = Ok (S754_infinity false)
       /\ e = mkExc OverflowError "cannot convert float infinity to integer")
   \/ (exists num,
         py_float value = Ok num /\ float_eq_int num 0 = false
         /\ float_gt_int num 1000 = false
         /\ float_round num digits = Raise e
         /\ e = mkExc OverflowError "rounded value too large to represent")).
Proof.
  split.
  - intros H.
    destruct (is_None value || eq_str value "") eqn:Hb.
    { unfold nformat in H. rewrite Hb in H. discriminate H. }
    split; [reflexivity |].
    destruct (py_float value) as [num | e'] eqn:Hnum.
    2:{ left.
        rewrite (nformat_propagates_conversion_error value e') in H by assumption.
        injection H as ->. reflexivity. }
    right.
    destruct (float_eq_int num 0) eqn:Hz.
    { rewrite (nformat_zero_branch value num) in H by assumption.
      destruct hide_zero; discriminate H. }
    destruct (float_gt_int num 1000) eqn:Hgt.
    + left. rewrite (nformat_large_branch value num) in H by assumption.
      destruct (int_of_float num) as [n | e'] eqn:Hn; [discriminate H |].
      cbn [bind] in H. injection H as ->.
      destruct (int_of_float_above_1000 num e Hgt Hn) as [-> ->].
      split; reflexivity.
    + right. exists num.
      rewrite (nformat_small_branch value num) in H by assumption.
      destruct (float_round num digits) as [r | e'] eqn:Hr; [discriminate H |].
      cbn [bind] in H. injection H as ->.
      split; [reflexivity |]. split; [exact Hz |]. split; [exact Hgt |].
      split; [reflexivity |].
      revert Hr. unfold float_round.
      destruct (negb (is_finite num)); [discriminate |].
      destruct (NDIGITS_MAX <? digits); [discriminate |].
      destruct (digits <? NDIGITS_MIN); [discriminate |].
      destruct (ratio_of_float num) as [p q].
      destruct (is_finite _); [discriminate |].
      intros Hr. injection Hr as <-. reflexivity.
  - intros [Hb [He | [[Hnum ->] | (num & Hnum & Hz & Hgt & Hr & _)]]].
    + apply nformat_propagates_conversion_error; assumption.
    + rewrite (nformat_large_branch value (S754_infinity false)) by auto.
      reflexivity.
    + rewrite (nformat_small_branch value num) by auto. rewrite Hr. reflexivity.
Qed.

(** ** [nformat]: [hide_zero] *)

(** X7: [hide_zero] bears on an input that coerces to zero and on no
    other: for every other input, whatever the other options, the result
    with [hide_zero] is the result without it. *)
Theorem nformat_hide_zero_hides_only_zero
    (value : object) (prefix suffix separator : string) (digits : Z) :
  nformat value prefix suffix separator true digits
  = nformat value prefix suffix separator false digits
  \/ (exists num,
        py_float value = Ok num /\ float_eq_int num 0 = true
        /\ nformat value prefix suffix separator true digits = Ok ""
        /\ nformat value prefix suffix separator false digits
           = Ok (prefix ++ "0" ++ suffix)).
Proof.
  destruct (is_None value || eq_str value "") eqn:Hb.
  { left. unfold nformat. rewrite Hb. reflexivity. }
  destruct (py_float value) as [num | e] eqn:Hnum.
  2:{ left. rewrite !(nformat_propagates_conversion_error value e); auto. }
  destruct (float_eq_int num 0) eqn:Hz.
  - right. exists num. rewrite !(nformat_zero_branch value num) by assumption. auto.
  - left. rewrite !(nformat_unfold value num) by assumption. rewrite Hz. reflexivity.
Qed.

(** ** Valid doubles above 1000 *)

Lemma digits2_pos_lower (m : positive) :
  2 ^ (Z.pos (digits2_pos m) - 1) <= Z.pos m.
Proof.
  induction m as [m IH | m IH |]; cbn [digits2_pos]; [| | cbn; lia].
  - rewrite Pos2Z.inj_succ.
    replace (Z.succ (Z.pos (digits2_pos m)) - 1)
      with (Z.succ (Z.pos (digits2_pos m) - 1)) by lia.
    rewrite Z.pow_succ_r by lia. lia.
  - rewrite Pos2Z.inj_succ.
    replace (Z.succ (Z.pos (digits2_pos m)) - 1)
      with (Z.succ (Z.pos (digits2_pos m) - 1)) by lia.
    rewrite Z.pow_succ_r by lia. lia.
Qed.

(** The whole part of a double above 1000 is 1000 or more. The order of
    [SFcompare] is the order of the values on the doubles that
    [valid_binary] accepts, those with a mantissa in canonical form. *)
Lemma trunc_above_1000 (num : float) :
  valid_binary prec emax num = true ->
  is_finite num = true ->
  float_gt_int num 1000 = true ->
  1000 <= trunc num.
Proof.
  intros Hv Hfin Hgt.
  unfold float_gt_int, float_gt, SFltb in Hgt. rewrite float_of_Z_1000 in Hgt.
  destruct num as [s | s | | s m e]; try discriminate Hfin;
    [destruct s; discriminate Hgt |].
  destruct s; [discriminate Hgt |].
  cbn [SFcompare] in Hgt.
  unfold trunc. cbn [sign_bit cond_Zopp ratio_of_float].
  cbn [valid_binary] in Hv. unfold bounded, canonical_mantissa in Hv.
  apply andb_prop in Hv as [Hc _]. apply Z.eqb_eq in Hc.
  unfold fexp, SpecFloat.emin, prec, emax in Hc.
  destruct (Z.compare_spec (-43) e) as [E | E | E]; [| | discriminate Hgt].
  - subst e. cbn [Z.leb Z.compare].
    assert (8796093022208000 < Z.pos m) as Hm.
    { destruct (Pos.compare_cont Eq 8796093022208000 m) eqn:Ec;
        try discriminate Hgt.
      exact Ec. }
    change (2 ^ (- -43)) with 8796093022208.
    apply Z.div_le_lower_bound; lia.
  - assert (Z.pos (digits2_pos m) = 53) as Hd by lia.
    pose proof (digits2_pos_lower m) as Hl. rewrite Hd in Hl.
    change (2 ^ (53 - 1)) with 4503599627370496 in Hl.
    destruct (Z.leb_spec 0 e) as [He | He].
    + rewrite Z.div_1_r.
      pose proof (Z.pow_pos_nonneg 2 e ltac:(lia) He). nia.
    + assert (2 ^ (- e) <= 2 ^ 42) as Hp by (apply Z.pow_le_mono_r; lia).
      change (2 ^ 42) with 4398046511104 in Hp.
      pose proof (Z.pow_pos_nonneg 2 (- e) ltac:(lia) ltac:(lia)).
      apply Z.div_le_lower_bound; nia.
Qed.

(** ** [nformat]: a value that rounds to zero *)

Lemma round_half_even_below_half (p q : Z) :
  0 <= p -> 2 * p < q -> round_half_even p q = 0.
Proof.
  intros Hp Hq. unfold round_half_even.
  rewrite (Z.div_small p q) by lia. rewrite (Z.mod_small p q) by lia.
  destruct (Z.compare_spec (2 * p) q); lia.
Qed.

Lemma float_of_decimal_0 (s : bool) (e : Z) : float_of_decimal s 0 e = S754_zero s.
Proof. unfold float_of_decimal. destruct (0 <=? e); reflexivity. Qed.

Lemma float_round_to_zero (s : bool) (m : positive) (e digits : Z) :
  0 <= digits <= NDIGITS_MAX ->
  2 * fst (ratio_of_float (S754_finite s m e)) * 10 ^ digits
    < snd (ratio_of_float (S754_finite s m e)) ->
  float_round (S754_finite s m e) digits = Ok (S754_zero s).
Proof.
  intros Hd H. unfold float_round. cbn [is_finite negb sign_bit].
  destruct (Z.ltb_spec NDIGITS_MAX digits); [lia |].
  destruct (Z.ltb_spec digits NDIGITS_MIN); [unfold NDIGITS_MIN in *; lia |].
  pose proof (ratio_of_float_pos s m e) as [Hp Hq].
  destruct (ratio_of_float (S754_finite s m e)) as [p q]. cbn [fst snd] in *.
  destruct (Z.leb_spec 0 digits); [| lia].
  pose proof (Z.pow_pos_nonneg 10 digits ltac:(lia) ltac:(lia)).
  rewrite round_half_even_below_half by nia.
  rewrite float_of_decimal_0. reflexivity.
Qed.

Lemma below_half_not_above_1000 (m : positive) (e digits : Z) :
  valid_binary prec emax (S754_finite false m e) = true ->
  0 <= digits ->
  2 * fst (ratio_of_float (S754_finite false m e)) * 10 ^ digits
    < snd (ratio_of_float (S754_finite false m e)) ->
  float_gt_int (S754_finite false m e) 1000 = false.
Proof.
  intros Hv Hd H.
  destruct (float_gt_int (S754_finite false m e) 1000) eqn:Hgt; [| reflexivity].
  exfalso.
  pose proof (trunc_above_1000 _ Hv eq_refl Hgt) as Ht.
  unfold trunc in Ht. cbn [sign_bit cond_Zopp] in Ht.
  pose proof (ratio_of_float_pos false m e) as [Hp Hq].
  destruct (ratio_of_float (S754_finite false m e)) as [p q]. cbn [fst snd] in *.
  pose proof (Z.pow_pos_nonneg 10 digits ltac:(lia) ltac:(lia)).
  rewrite Z.div_small in Ht by nia. lia.
Qed.

(** X8: [hide_zero] and the text [0] are for an input that is zero before
    the rounding. A valid double [p / q] that is not zero and is below
    half a unit of the last of [digits] places, [2 * p * 10^digits < q],
    is written [0.0], or [-0.0] when it is negative, between the prefix
    and the suffix, with [hide_zero] and without it. *)
Theorem nformat_shows_a_value_rounded_to_zero
    (v : object) (s : bool) (m : positive) (e : Z)
    (prefix suffix separator : string) (hide_zero : bool) (digits : Z) :
  py_float v = Ok (S754_finite s m e) ->
  valid_binary prec emax (S754_finite s m e) = true ->
  0 <= digits <= NDIGITS_MAX ->
  2 * fst (ratio_of_float (S754_finite s m e)) * 10 ^ digits
    < snd (ratio_of_float (S754_finite s m e)) ->
  nformat v prefix suffix separator hide_zero digits
  = Ok (prefix ++ (if s then "-0.0" else "0.0") ++ suffix).
Proof.
  intros Hnum Hv Hd H.
  rewrite (nformat_small_branch v (S754_finite s m e)); auto.
  - rewrite (float_round_to_zero s m e digits Hd H). destruct s; reflexivity.
  - destruct s; reflexivity.
  - destruct s; [reflexivity |].
    apply (below_half_not_above_1000 m e digits); [assumption | lia | assumption].
Qed.

Lemma nformat_shows_a_value_rounded_to_zero_witness :
  nformat (VStr "0.004") "" "" "" true 2 = Ok "0.0"
  /\ nformat (VStr "-0.004") "" "%" "" true 2 = Ok "-0.0%".
Proof.
  split.
  - assert (exists m e, float_lit 4 (-3) = S754_finite false m e) as (m & e & E)
      by (vm_compute; eauto).
    apply (nformat_shows_a_value_rounded_to_zero (VStr "0.004") false m e
             "" "" "" true 2); try rewrite <- E.
    + vm_compute. reflexivity.
    + vm_compute. reflexivity.
    + unfold NDIGITS_MAX. lia.
    + vm_compute. reflexivity.
  - assert (exists m e, float_of_decimal true 4 (-3) = S754_finite true m e)
      as (m & e & E) by (vm_compute; eauto).
    apply (nformat_shows_a_value_rounded_to_zero (VStr "-0.004") true m e
             "" "%" "" true 2); try rewrite <- E.
    + vm_compute. reflexivity.
    + vm_compute. reflexivity.
    + unfold NDIGITS_MAX. lia.
    + vm_compute. reflexivity.
Defined.

(** ** [nformat]: the values above 1000 *)

Lemma group_digits_no_separator (text : string) : group_digits "" text = text.
Proof.
  rewrite group_digits_from_the_right.
  rewrite <- (str_of_chars_chars text) at 2.
  induction (chars text) as [| x l IH]; [reflexivity |].
  cbn [count_right map]. rewrite join_empty_cons, IH.
  unfold group_piece. destruct (negb _ && _); reflexivity.
Qed.

Lemma digits_of_positive (n : Z) :
  0 < n -> forallb is_digit (chars (str_int n)) = true.
Proof.
  intros H. destruct n as [| p | p]; try lia.
  rewrite str_int_pos. apply forallb_forall.
  pose proof (uint_chars_are_digits (Pos.to_uint p)) as G.
  rewrite Forall_forall in G. exact G.
Qed.

Lemma four_digits_from_1000 (n : Z) : 1000 <= n -> 4 <= ndigits10 n.
Proof.
  intros H. pose proof (ndigits10_bounds n) as B.
  assert (0 < n) as Hp by lia. specialize (B Hp).
  destruct (Z_lt_le_dec (ndigits10 n) 4) as [L | L]; [| exact L].
  exfalso.
  assert (10 ^ ndigits10 n <= 10 ^ 3) as P.
  { apply Z.pow_le_mono_r; lia. }
  change (10 ^ 3) with 1000 in P. lia.
Qed.

(** X9: with the separator left empty, its default, a finite valid double
    above 1000 is written as its whole part between the prefix and the
    suffix: an integer of 1000 or more in decimal digits only, four at the
    least, with no sign, no point and no exponent, whatever [digits] is. *)
Theorem nformat_above_1000_is_whole_number
    (v : object) (num : float) (prefix suffix : string)
    (hide_zero : bool) (digits : Z) :
  py_float v = Ok num ->
  valid_binary prec emax num = true ->
  is_finite num = true ->
  float_gt_int num 1000 = true ->
  nformat v prefix suffix "" hide_zero digits
    = Ok (prefix ++ str_int (trunc num) ++ suffix)
  /\ 1000 <= trunc num
  /\ forallb is_digit (chars (str_int (trunc num))) = true
  /\ 4 <= Z.of_nat (String.length (str_int (trunc num))).
Proof.
  intros Hnum Hv Hfin Hgt.
  pose proof (trunc_above_1000 num Hv Hfin Hgt) as Ht.
  split; [| split; [exact Ht | split]].
  - rewrite (nformat_large_branch v num) by assumption.
    rewrite (int_of_float_finite num Hfin). cbn [bind].
    rewrite group_digits_no_separator. reflexivity.
  - apply digits_of_positive. lia.
  - apply four_digits_from_1000, Ht.
Qed.

Lemma nformat_above_1000_is_whole_number_witness :
  nformat (VStr "1234567.89") "" " pcs" "" false 2 = Ok "1234567 pcs"
  /\ 1000 <= trunc (float_lit 123456789 (-2)).
Proof.
  destruct (nformat_above_1000_is_whole_number
              (VStr "1234567.89") (float_lit 123456789 (-2)) "" " pcs" false 2)
    as (H & H1 & _); try (vm_compute; reflexivity).
  split; [| exact H1]. rewrite H. vm_compute. reflexivity.
Defined.

(** ** [nformat]: what the grouping adds *)

Lemma mem_char_In (c : ascii) (s : string) :
  In c (chars s) -> mem_char c s = true.
Proof.
  intros H. unfold mem_char. apply existsb_exists.
  exists c. split; [exact H | apply Ascii.eqb_refl].
Qed.

Lemma without_own_chars (separator : string) :
  without_chars_of separator (chars separator) = [].
Proof.
  unfold without_chars_of.
  assert (forall l, (forall c, In c l -> mem_char c separator = true) ->
                    filter (fun c => negb (mem_char c separator)) l = []) as G.
  { induction l as [| c l IH]; [reflexivity |]. intros H. cbn [filter].
    rewrite (H c (or_introl eq_refl)). cbn [negb].
    apply IH. intros c' Hc'. apply H. right. exact Hc'. }
  apply G. intros c. apply mem_char_In.
Qed.

Lemma chars_group_piece (separator : string) (k : Z) (x : ascii) :
  chars (group_piece separator (k, x))
  = x :: (if negb (k =? 0) && (k mod 3 =? 0) then chars separator else []).
Proof.
  unfold group_piece. rewrite chars_app, chars_String.
  destruct (negb (k =? 0) && (k mod 3 =? 0)); reflexivity.
Qed.

(** Without the characters of the separator, a grouped text is the text
    that was grouped, when the two have no character in common. *)
Lemma grouping_keeps_characters (separator : string) (l : list ascii) :
  (forall c, In c l -> mem_char c separator = false) ->
  without_chars_of separator
    (chars (join "" (map (group_piece separator) (count_right l)))) = l.
Proof.
  induction l as [| x l IH]; intros H; [reflexivity |].
  cbn [count_right map]. rewrite join_empty_cons, chars_app, chars_group_piece.
  unfold without_chars_of in *. cbn [app filter].
  rewrite (H x (or_introl eq_refl)). cbn [negb]. rewrite filter_app.
  rewrite IH by (intros c Hc; apply H; right; exact Hc).
  destruct (negb _ && _); [| reflexivity].
  pose proof (without_own_chars separator) as E. unfold without_chars_of in E.
  rewrite E. reflexivity.
Qed.

(** A grouped text of [n] characters holds the separator [(n - 1) / 3]
    times. *)
Lemma grouping_length (separator : string) (l : list ascii) :
  Z.of_nat (List.length (chars (join "" (map (group_piece separator) (count_right l)))))
  = Z.of_nat (List.length l)
    + (Z.max 0 (Z.of_nat (List.length l) - 1) / 3)
      * Z.of_nat (List.length (chars separator)).
Proof.
  induction l as [| x l IH]; [reflexivity |].
  cbn [count_right map]. rewrite join_empty_cons, chars_app, chars_group_piece.
  cbn [List.length]. rewrite length_app, !Nat2Z.inj_succ, Nat2Z.inj_add, IH.
  set (k := Z.of_nat (List.length l)).
  set (w := Z.of_nat (List.length (chars separator))).
  assert (0 <= k) as Hk by (subst k; lia).
  replace (Z.max 0 (Z.succ k - 1)) with k by lia.
  destruct (Z.eqb_spec k 0) as [E | E].
  - rewrite E. cbn. lia.
  - replace (Z.max 0 (k - 1)) with (k - 1) by lia.
    cbn [negb andb].
    destruct (Z.eqb_spec (k mod 3) 0) as [E3 | E3].
    + cbn [List.length]. rewrite Nat2Z.inj_succ. fold w.
      assert (k / 3 = (k - 1) / 3 + 1) as -> by
        (Z.div_mod_to_equations; lia).
      set (d := (k - 1) / 3). lia.
    + cbn [List.length].
      assert (k / 3 = (k - 1) / 3) as -> by
        (Z.div_mod_to_equations; lia).
      set (d := (k - 1) / 3). lia.
Qed.

Lemma digit_not_in_separator (separator : string) (c : ascii) :
  forallb (fun x => negb (is_digit x)) (chars separator) = true ->
  is_digit c = true -> mem_char c separator = false.
Proof.
  intros Hs Hc. unfold mem_char.
  destruct (existsb (Ascii.eqb c) (chars separator)) eqn:E; [| reflexivity].
  apply existsb_exists in E as (x & Hx & Hcx). apply Ascii.eqb_eq in Hcx. subst x.
  rewrite forallb_forall in Hs. specialize (Hs c Hx).
  rewrite Hc in Hs. discriminate Hs.
Qed.

(** X10: the grouping adds separators and nothing else. For a finite
    valid double above 1000 and a separator that holds no digit, the
    grouped text without the characters of the separator is the decimal
    text of the whole part, and its length is that of the [n] digits and
    of [(n - 1) / 3] separators. *)
Theorem nformat_grouping_adds_only_separators
    (v : object) (num : float) (prefix suffix separator : string)
    (hide_zero : bool) (digits : Z) :
  py_float v = Ok num ->
  valid_binary prec emax num = true ->
  is_finite num = true ->
  float_gt_int num 1000 = true ->
  forallb (fun c => negb (is_digit c)) (chars separator) = true ->
  exists grouped,
    nformat v prefix suffix separator hide_zero digits
      = Ok (prefix ++ grouped ++ suffix)
    /\ without_chars_of separator (chars grouped) = chars (str_int (trunc num))
    /\ Z.of_nat (String.length grouped)
       = ndigits10 (trunc num)
         + ((ndigits10 (trunc num) - 1) / 3) * Z.of_nat (String.length separator).
Proof.
  intros Hnum Hv Hfin Hgt Hsep.
  pose proof (trunc_above_1000 num Hv Hfin Hgt) as Ht.
  exists (group_digits separator (str_int (trunc num))). split; [| split].
  - rewrite (nformat_large_branch v num) by assumption.
    rewrite (int_of_float_finite num Hfin). reflexivity.
  - rewrite group_digits_from_the_right. apply grouping_keeps_characters.
    intros c Hc. apply digit_not_in_separator; [exact Hsep |].
    pose proof (digits_of_positive (trunc num) ltac:(lia)) as D.
    rewrite forallb_forall in D. auto.
  - rewrite group_digits_from_the_right, <- !length_chars, grouping_length.
    unfold ndigits10. rewrite <- !length_chars.
    pose proof (four_digits_from_1000 (trunc num) Ht) as F.
    unfold ndigits10 in F. rewrite <- length_chars in F.
    rewrite Z.max_r by lia. reflexivity.
Qed.

Lemma nformat_grouping_adds_only_separators_witness :
  exists grouped,
    nformat (VInt 1234567) "" "" ", " false 2 = Ok ("" ++ grouped ++ "")
    /\ without_chars_of ", " (chars grouped) = chars "1234567"
    /\ Z.of_nat (String.length grouped) = 7 + ((7 - 1) / 3) * 2.
Proof.
  destruct (nformat_grouping_adds_only_separators
              (VInt 1234567) (float_of_Z 1234567) "" "" ", " false 2)
    as (g & H1 & H2 & H3); try (vm_compute; reflexivity).
  exists g. split; [exact H1 |]. split; [exact H2 | exact H3].
Defined.

(** ** [nformat]: the values up to 1000 *)

Lemma mem_char_app (c : ascii) (a b : string) :
  mem_char c (a ++ b) = mem_char c a || mem_char c b.
Proof. unfold mem_char. rewrite chars_app. apply existsb_app. Qed.

Lemma place_point_has_point (ds : string) (decpt : Z) :
  mem_char "." (place_point ds decpt true) = true.
Proof.
  unfold place_point.
  destruct (decpt <=? 0); [reflexivity |].
  destruct (_ <=? decpt); rewrite !mem_char_app.
  - change (mem_char "." ".0") with true. rewrite !orb_true_r. reflexivity.
  - change (mem_char "." ".") with true. rewrite orb_true_l, orb_true_r.
    reflexivity.
Qed.

Lemma repr_float_has_point_or_exponent (x : float) :
  is_finite x = true -> has_point_or_exponent (repr_float x) = true.
Proof.
  destruct x as [s | s | | s m e]; try discriminate; intros _;
    [destruct s; reflexivity |].
  unfold has_point_or_exponent. cbn [repr_float].
  destruct (shortest_digits _) as [ds decpt].
  destruct ((decpt <=? -4) || (16 <? decpt)); rewrite !mem_char_app.
  - unfold repr_exponent. rewrite !mem_char_app.
    destruct (decpt - 1 <? 0);
      [change (mem_char "e" "e-") with true | change (mem_char "e" "e+") with true];
      rewrite ?orb_true_l, ?orb_true_r; reflexivity.
  - rewrite place_point_has_point, ?orb_true_l, ?orb_true_r. reflexivity.
Qed.

Lemma float_round_finite (x r : float) (digits : Z) :
  is_finite x = true -> float_round x digits = Ok r -> is_finite r = true.
Proof.
  intros Hx. unfold float_round. rewrite Hx. cbn [negb].
  destruct (NDIGITS_MAX <? digits); [intros E; injection E as <-; exact Hx |].
  destruct (digits <? NDIGITS_MIN); [intros E; injection E as <-; reflexivity |].
  destruct (ratio_of_float x) as [p q].
  destruct (is_finite (float_of_decimal _ _ _)) eqn:Hf; [| discriminate].
  intros E. injection E as <-. exact Hf.
Qed.

(** X11: a finite value that is not zero and not above 1000 is written
    with a decimal point or an exponent, whatever [digits] is: the text
    that [nformat] gives for it without a prefix and a suffix holds a
    point or an [e], and the prefix and the suffix go around that text. *)
Theorem nformat_up_to_1000_has_point_or_exponent
    (v : object) (num : float) (prefix suffix separator : string)
    (hide_zero : bool) (digits : Z) (text : string) :
  py_float v = Ok num ->
  is_finite num = true ->
  float_eq_int num 0 = false ->
  float_gt_int num 1000 = false ->
  nformat v "" "" separator hide_zero digits = Ok text ->
  has_point_or_exponent text = true
  /\ nformat v prefix suffix separator hide_zero digits
     = Ok (prefix ++ text ++ suffix).
Proof.
  intros Hnum Hfin Hz Hgt.
  rewrite !(nformat_small_branch v num) by assumption.
  destruct (float_round num digits) as [r |] eqn:Hr; [| discriminate].
  cbn [bind]. intros E.
  assert (text = repr_float r) as ->.
  { injection E as <-. cbn [append]. apply append_empty_r. }
  split; [| reflexivity].
  apply repr_float_has_point_or_exponent, (float_round_finite num r digits Hfin Hr).
Qed.

Lemma nformat_up_to_1000_has_point_or_exponent_witness :
  has_point_or_exponent "1e-07" = true
  /\ nformat (VStr "0.0000001") "<" ">" "," false 9 = Ok "<1e-07>".
Proof.
  apply (nformat_up_to_1000_has_point_or_exponent
           (VStr "0.0000001") (float_lit 1 (-7)) "<" ">" "," false 9 "1e-07");
    vm_compute; reflexivity.
Defined.

(** ** [nformat]: whole numbers up to 1000 *)

Lemma int_range_In (lo : Z) (count : nat) (n : Z) :
  lo <= n < lo + Z.of_nat count -> In n (int_range lo count).
Proof.
  intros H. unfold int_range. apply in_map_iff.
  exists (Z.to_nat (n - lo)). split; [lia |]. apply in_seq. lia.
Qed.

(** Every integer from -1000 to 1000 but 0, under 0 to 2 digits. *)
Lemma whole_text_ok_all :
  forallb (fun d => forallb (fun n => (n =? 0) || whole_text_ok d n)
                            (int_range (-1000) 2001))
          (int_range 0 3) = true.
Proof. vm_compute. reflexivity. Qed.

(** X12: a whole number up to 1000 is written with [.0] after it. For
    every [int] from -1000 to 1000 but 0 and [digits] from 0 to 2, the
    result of [nformat] is the prefix, the decimal text of the [int], [.0]
    and the suffix, whatever the separator is: [nformat(100)] is [100.0]. *)
Theorem nformat_whole_number_gets_point_zero
    (n digits : Z) (prefix suffix separator : string) (hide_zero : bool) :
  -1000 <= n <= 1000 -> n <> 0 -> 0 <= digits <= 2 ->
  nformat (VInt n) prefix suffix separator hide_zero digits
  = Ok (prefix ++ (str_int n ++ ".0") ++ suffix).
Proof.
  intros Hn Hnz Hd.
  pose proof whole_text_ok_all as H. rewrite forallb_forall in H.
  specialize (H digits (int_range_In 0 3 digits ltac:(lia))).
  rewrite forallb_forall in H.
  specialize (H n (int_range_In (-1000) 2001 n ltac:(lia))).
  destruct (Z.eqb_spec n 0); [contradiction |]. cbn [orb] in H.
  unfold whole_text_ok in H.
  apply andb_prop in H as [H Hr]. apply andb_prop in H as [H Hgt].
  apply andb_prop in H as [Hfin Hz].
  apply negb_true_iff in Hz, Hgt.
  rewrite (nformat_small_branch (VInt n) (float_of_Z n)); auto.
  - destruct (float_round (float_of_Z n) digits) as [r |]; [| discriminate Hr].
    apply String.eqb_eq in Hr. cbn [bind]. rewrite Hr. reflexivity.
  - cbn [py_float]. unfold float_of_int. rewrite Hfin. reflexivity.
Qed.

Lemma nformat_whole_number_gets_point_zero_witness :
  nformat (VInt 100) "$" " USD" "," false 2 = Ok "$100.0 USD"
  /\ nformat (VInt (-7)) "" "" "" true 0 = Ok "-7.0".
Proof.
  split.
  - apply (nformat_whole_number_gets_point_zero 100 2 "$" " USD" "," false); lia.
  - apply (nformat_whole_number_gets_point_zero (-7) 0 "" "" "" true); lia.
Defined.

(** ** [nformat]: NaN and the negative infinity *)

(** X13: an input that coerces to a NaN or to the negative infinity is not
    an error: the result is the prefix, [nan] or [-inf], and the suffix,
    whatever the other options are. *)
Theorem nformat_nan_and_negative_infinity
    (v : object) (num : float) (prefix suffix separator : string)
    (hide_zero : bool) (digits : Z) :
  py_float v = Ok num ->
  num = S754_nan \/ num = S754_infinity true ->
  nformat v prefix suffix separator hide_zero digits
  = Ok (prefix ++ (if sign_bit num then "-inf" else "nan") ++ suffix).
Proof.
  intros Hnum [-> | ->];
    rewrite (nformat_small_branch v _ prefix suffix separator hide_zero digits Hnum);
    reflexivity.
Qed.

Lemma nformat_nan_and_negative_infinity_witness :
  nformat (VStr "-Infinity") "$" "" "," true 2 = Ok "$-inf"
  /\ nformat (VDecimal (DecNaN false "")) "" "%" "" false 0 = Ok "nan%".
Proof.
  split.
  - apply (nformat_nan_and_negative_infinity (VStr "-Infinity") (S754_infinity true)).
    + vm_compute. reflexivity.
    + right. reflexivity.
  - apply (nformat_nan_and_negative_infinity (VDecimal (DecNaN false "")) S754_nan).
    + vm_compute. reflexivity.
    + left. reflexivity.
Defined.

(** ** [nformat]: a blank text *)

Lemma lstrip_spaces (l : list ascii) :
  forallb is_space l = true -> lstrip l = [].
Proof.
  induction l as [| c l IH]; [reflexivity |].
  cbn [forallb lstrip]. intros H. apply andb_prop in H as [Hc Hl].
  rewrite Hc. exact (IH Hl).
Qed.

(** X14: the empty string alone stands for an absent input. A text of
    white space only, one character or more, raises the [ValueError] of
    [float], which quotes the text. *)
Theorem nformat_blank_text_raises
    (text : string) (prefix suffix separator : string)
    (hide_zero : bool) (digits : Z) :
  text <> "" ->
  forallb is_space (chars text) = true ->
  nformat (VStr text) prefix suffix separator hide_zero digits
  = Raise (mkExc ValueError
             ("could not convert string to float: " ++ repr_str text)).
Proof.
  intros Hne Hsp.
  apply nformat_propagates_conversion_error.
  - destruct text; [congruence | reflexivity].
  - cbn [py_float]. unfold float_of_str, parse_float, strip.
    rewrite (lstrip_spaces _ Hsp). reflexivity.
Qed.

Lemma nformat_blank_text_raises_witness :
  nformat (VStr "  ") "" "" "" false 2
  = Raise (mkExc ValueError "could not convert string to float: '  '").
Proof.
  apply (nformat_blank_text_raises "  " "" "" "" false 2).
  - discriminate.
  - reflexivity.
Defined.

(** ** [to_json]: what it refuses *)







(** ** [to_json]: tuples, infinities and NaN *)







(** ** [to_json]: the characters of the text *)

Lemma all_chars_app (p : ascii -> bool) (a b : string) :
  all_chars p a -> all_chars p b -> all_chars p (a ++ b).
Proof.
  intros Ha Hb c. rewrite chars_app, in_app_iff. intros [H | H]; auto.
Qed.

Lemma all_chars_wrap (p : ascii -> bool) (a m b : string) :
  all_chars p a -> all_chars p m -> all_chars p b -> all_chars p (a ++ m ++ b).
Proof.
  intros Ha Hm Hb. apply all_chars_app; [| apply all_chars_app]; assumption.
Qed.

Lemma all_chars_closed (p : ascii -> bool) (s : string) :
  forallb p (chars s) = true -> all_chars p s.
Proof. intros H c Hc. rewrite forallb_forall in H. auto. Qed.

Lemma all_chars_forallb (p : ascii -> bool) (s : string) :
  all_chars p s -> forallb p (chars s) = true.
Proof. intros H. apply forallb_forall. exact H. Qed.

Lemma is_digit_plain (c : ascii) : is_digit c = true -> is_plain c = true.
Proof.
  unfold is_digit, is_plain. intros H. apply andb_prop in H as [H1 H2].
  apply Z.leb_le in H1, H2. apply andb_true_intro. split; apply Z.leb_le; lia.
Qed.

Lemma plain_uint (u : Decimal.uint) :
  all_chars is_plain (DecimalString.NilEmpty.string_of_uint u).
Proof.
  intros c Hc. apply is_digit_plain.
  pose proof (uint_chars_are_digits u) as H. rewrite Forall_forall in H. auto.
Qed.

Lemma plain_str_int (n : Z) : all_chars is_plain (str_int n).
Proof.
  destruct n as [| p | p].
  - apply all_chars_closed. reflexivity.
  - rewrite str_int_pos. apply plain_uint.
  - rewrite str_int_neg. intros c. rewrite chars_String.
    intros [<- | H]; [reflexivity | apply (plain_uint _ c H)].
Qed.

Lemma In_drop_zeros (c : ascii) (l : list ascii) :
  In c (drop_zeros l) -> In c l.
Proof.
  induction l as [| x l IH]; [contradiction |]. cbn [drop_zeros].
  destruct (Ascii.eqb x "0"); [right; auto | auto].
Qed.

Lemma all_chars_rstrip_zeros (p : ascii -> bool) (s : string) :
  all_chars p s -> all_chars p (rstrip_zeros s).
Proof.
  intros H c. unfold rstrip_zeros. rewrite chars_str_of_chars, <- in_rev.
  intros Hc. apply In_drop_zeros in Hc. rewrite <- in_rev in Hc. auto.
Qed.

Lemma In_substring (c : ascii) (s : string) (n m : nat) :
  In c (chars (substring n m s)) -> In c (chars s).
Proof.
  revert n m. induction s as [| x s IH]; intros n m.
  - destruct n, m; cbn; auto.
  - destruct n as [| n].
    + destruct m as [| m]; [contradiction |].
      cbn [substring]. rewrite !chars_String.
      intros [-> | H]; [left; reflexivity | right; exact (IH _ _ H)].
    + cbn [substring]. rewrite chars_String. intros H. right. exact (IH _ _ H).
Qed.

Lemma all_chars_substring (p : ascii -> bool) (s : string) (n m : nat) :
  all_chars p s -> all_chars p (substring n m s).
Proof. intros H c Hc. apply H, (In_substring c s n m Hc). Qed.

Lemma all_chars_repeat (p : ascii -> bool) (c : ascii) (n : Z) :
  p c = true -> all_chars p (repeat_char c n).
Proof.
  intros H x. unfold repeat_char. rewrite chars_str_of_chars.
  intros Hx. apply repeat_spec in Hx. subst x. exact H.
Qed.

Lemma plain_place_point (ds : string) (decpt : Z) (add_dot_0 : bool) :
  all_chars is_plain ds -> all_chars is_plain (place_point ds decpt add_dot_0).
Proof.
  intros H. unfold place_point.
  destruct (decpt <=? 0); [| destruct (_ <=? decpt)].
  - apply all_chars_wrap; auto using all_chars_repeat.
    apply all_chars_closed. reflexivity.
  - apply all_chars_wrap; auto using all_chars_repeat.
    destruct add_dot_0; apply all_chars_closed; reflexivity.
  - apply all_chars_wrap; auto using all_chars_substring.
    apply all_chars_closed. reflexivity.
Qed.

Lemma plain_repr_exponent (e : Z) : all_chars is_plain (repr_exponent e).
Proof.
  unfold repr_exponent, zfill.
  apply all_chars_wrap; auto using plain_str_int, all_chars_repeat.
  destruct (e <? 0); apply all_chars_closed; reflexivity.
Qed.

Lemma plain_repr_float (x : float) : all_chars is_plain (repr_float x).
Proof.
  destruct x as [s | s | | s m e]; cbn [repr_float];
    try (destruct s; apply all_chars_closed; reflexivity);
    try (apply all_chars_closed; reflexivity).
  unfold shortest_digits.
  destruct (ratio_of_float _) as [p q]. destruct (digits_search _ _ _ _ _ _) as [c n].
  assert (all_chars is_plain (rstrip_zeros (str_int c))) as Hds
    by apply all_chars_rstrip_zeros, plain_str_int.
  apply all_chars_app; [destruct s; apply all_chars_closed; reflexivity |].
  destruct (_ || _).
  - apply all_chars_app; auto using plain_place_point, plain_repr_exponent.
  - apply plain_place_point, Hds.
Qed.

Lemma plain_json_escape_char (c : ascii) :
  forallb is_plain (chars (json_escape_char c)) = true.
Proof. destruct c as [[] [] [] [] [] [] [] []]; reflexivity. Qed.

Lemma all_chars_concat (p : ascii -> bool) (parts : list string) :
  Forall (all_chars p) parts -> all_chars p (concat "" parts).
Proof.
  induction 1 as [| x l Hx _ IH]; [intros c H; contradiction H |].
  cbn [concat]. destruct l as [| y l]; [exact Hx |].
  apply all_chars_wrap; auto. intros c H; contradiction H.
Qed.

Lemma plain_json_encode_str (s : string) : all_chars is_plain (json_encode_str s).
Proof.
  unfold json_encode_str. intros c. rewrite chars_app, in_app_iff, chars_String.
  intros [[<- | H] | H].
  - reflexivity.
  - revert c H. apply all_chars_concat. apply Forall_forall.
    intros t Ht. apply in_map_iff in Ht as (x & <- & _).
    apply all_chars_closed, plain_json_escape_char.
  - destruct H as [<- | []]. reflexivity.
Qed.

Lemma all_chars_join (p : ascii -> bool) (sep : string) (parts : list string) :
  all_chars p sep -> Forall (all_chars p) parts -> all_chars p (join sep parts).
Proof.
  intros Hs. induction 1 as [| x l Hx Hl IH]; [intros c H; contradiction H |].
  destruct l as [| y l]; [exact Hx |].
  rewrite join_cons2. apply all_chars_wrap; auto.
Qed.

Lemma mapM_all {A B : Type} (f : A -> result B) (P : B -> Prop) (l : list A)
    (cs : list B) :
  Forall (fun x => forall c, f x = Ok c -> P c) l ->
  mapM f l = Ok cs -> Forall P cs.
Proof.
  intros H. revert cs. induction H as [| x l Hx _ IH]; intros cs.
  - intros E. injection E as <-. constructor.
  - rewrite mapM_cons. destruct (f x) as [c |] eqn:Ec; [| discriminate].
    cbn [bind]. destruct (mapM f l) as [cs' |]; [| discriminate].
    intros E. injection E as <-. constructor; auto.
Qed.

Lemma plain_json_dumps (o : object) (t : string) :
  json_dumps o = Ok t -> all_chars is_plain t.
Proof.
  revert t.
  induction o as [| b | n | x | s | l IH | l IH | d IH | d | d]
    using object_ind; intros t; cbn [json_dumps]; try discriminate.
  - intros E. injection E as <-. apply all_chars_closed. reflexivity.
  - intros E. injection E as <-. destruct b; apply all_chars_closed; reflexivity.
  - intros E. injection E as <-. apply plain_str_int.
  - intros E. injection E as <-.
    destruct x as [s | [|] | | s m e]; try apply plain_repr_float;
      apply all_chars_closed; reflexivity.
  - intros E. injection E as <-. apply plain_json_encode_str.
  - destruct (mapM json_dumps l) as [cs |] eqn:Ecs; [| discriminate].
    intros E. injection E as <-.
    pose proof (mapM_all json_dumps (all_chars is_plain) l cs IH Ecs).
    change (all_chars is_plain ("[" ++ join ", " cs ++ "]")).
    apply all_chars_wrap; try (apply all_chars_closed; reflexivity).
    apply all_chars_join; [apply all_chars_closed; reflexivity | assumption].
  - destruct (mapM json_dumps l) as [cs |] eqn:Ecs; [| discriminate].
    intros E. injection E as <-.
    pose proof (mapM_all json_dumps (all_chars is_plain) l cs IH Ecs).
    change (all_chars is_plain ("[" ++ join ", " cs ++ "]")).
    apply all_chars_wrap; try (apply all_chars_closed; reflexivity).
    apply all_chars_join; [apply all_chars_closed; reflexivity | assumption].
  - destruct (mapM _ d) as [cs |] eqn:Ecs; [| discriminate].
    intros E. injection E as <-.
    assert (Forall (all_chars is_plain) cs) as Hcs.
    { refine (mapM_all _ (all_chars is_plain) d cs _ Ecs).
      rewrite Forall_forall in *. intros kv Hkv m.
      destruct (json_dumps (snd kv)) as [t |] eqn:Et; [| discriminate].
      cbn [bind]. intros E.
      assert (m = json_encode_str (fst kv) ++ ": " ++ t) as -> by congruence.
      apply all_chars_wrap; auto using plain_json_encode_str.
      + apply all_chars_closed. reflexivity.
      + apply (IH kv Hkv). exact Et. }
    change (all_chars is_plain ("{" ++ join ", " cs ++ "}")).
    apply all_chars_wrap; try (apply all_chars_closed; reflexivity).
    apply all_chars_join; [apply all_chars_closed; reflexivity | assumption].
Qed.

(** X17: the text of [to_json] is printable ASCII. Whatever the input
    holds, every character of the text is between the space and the
    tilde: a control character and a character above 126 are written as
    escapes, and the text has no line break. *)
Theorem to_json_text_is_printable_ascii (data : object) (text : string) :
  to_json data = Ok text ->
  forallb is_plain (chars text) = true.
Proof. intros H. apply all_chars_forallb, (plain_json_dumps data text H). Qed.

Lemma to_json_text_is_printable_ascii_witness :
  to_json (VDict [("k", VStr (String (chr 233) (String (chr 10) "<")))])
  = Ok ("{" ++ String quote2 "k" ++ String quote2 ": "
            ++ String quote2 "\u00e9\n<" ++ String quote2 "}")
  /\ forallb is_plain
       (chars ("{" ++ String quote2 "k" ++ String quote2 ": "
                   ++ String quote2 "\u00e9\n<" ++ String quote2 "}")) = true.
Proof.
  split; [vm_compute; reflexivity |].
  apply (to_json_text_is_printable_ascii
           (VDict [("k", VStr (String (chr 233) (String (chr 10) "<")))])).
  vm_compute. reflexivity.
Defined.

(** ** [to_json]: what it does not escape *)

Lemma json_escape_char_unescaped (c : ascii) :
  is_unescaped c = true -> json_escape_char c = String c "".
Proof.
  destruct c as [[] [] [] [] [] [] [] []]; intros H;
    first [ discriminate H | reflexivity ].
Qed.

Lemma concat_escape_unescaped (l : list ascii) :
  forallb is_unescaped l = true ->
  concat "" (map json_escape_char l) = str_of_chars l.
Proof.
  induction l as [| c l IH]; [reflexivity |].
  cbn [forallb]. intros H. apply andb_prop in H as [Hc Hl].
  cbn [map]. rewrite concat_empty_cons, (json_escape_char_unescaped c Hc), (IH Hl).
  reflexivity.
Qed.

(** X18: [to_json] escapes for JSON and not for HTML. A [str] of printable
    ASCII characters without a double quote and a backslash is written
    as it is between two double quotes: the angle brackets, the ampersand
    and the single quote of a markup text stay in the text of [to_json]. *)
Theorem to_json_does_not_escape_markup (key s : string) :
  forallb is_unescaped (chars s) = true ->
  json_encode_str s = String quote2 (s ++ String quote2 "")
  /\ to_json (VDict [(key, VStr s)])
     = Ok ("{" ++ (json_encode_str key ++ ": "
                   ++ String quote2 (s ++ String quote2 "")) ++ "}").
Proof.
  intros H.
  assert (json_encode_str s = String quote2 (s ++ String quote2 "")) as E.
  { unfold json_encode_str.
    rewrite (concat_escape_unescaped _ H), str_of_chars_chars. reflexivity. }
  split; [exact E |]. unfold to_json. cbn [json_dumps mapM bind fst snd join].
  rewrite E. reflexivity.
Qed.

Lemma to_json_does_not_escape_markup_witness :
  to_json (VDict [("html", VStr "</script><img src=x onerror='alert(1)'>&")])
  = Ok ("{" ++ (json_encode_str "html" ++ ": "
                ++ String quote2 ("</script><img src=x onerror='alert(1)'>&"
                                  ++ String quote2 "")) ++ "}").
Proof.
  apply (to_json_does_not_escape_markup "html"
           "</script><img src=x onerror='alert(1)'>&").
  reflexivity.
Defined.

(** ** The table of filters *)

